(** * Recognizer registry provider (presidio-analyzer)

    A shallow embedding of
    [presidio_analyzer/recognizer_registry_provider.py]: the class
    [RecognizerRegistryProvider], which resolves a registry configuration
    (an inline mapping or a YAML file layered over the packaged default
    document) and assembles a recognizer registry from it.

    Python values are embedded as the inductive [pyval]; exceptions as
    [exn] in the error monad [result]; the file system and the logger as an
    explicit event trace; [self] as a record that the methods receive. *)

From Stdlib Require Import List String Ascii ZArith Bool Lia.
From Stdlib Require Import Floats.SpecFloat.
From Stdlib Require Import Permutation.
Import ListNotations.
Open Scope string_scope.
Open Scope list_scope.

#[local] Set Warnings "-register-all".

(** ** Python values *)

(** The values a YAML document (or an inline configuration) is made of.
    Mappings are association lists in insertion order; their keys are
    strings, as in [Dict[str, Any]]. *)
Inductive pyval : Type :=
| PNone
| PBool (b : bool)
| PInt (z : Z)
| PFloat (f : spec_float)
| PStr (s : string)
| PList (l : list pyval)
| PDict (d : list (string * pyval)).

Definition dict : Type := list (string * pyval).

(** Exceptions raised by the code and by the interpreter underneath it. *)
Inductive exn : Type :=
| ValueError (msg : string)
| TypeError
| KeyError (key : pyval)
| IndexError
| AttributeError
| IOError
| YAMLError
| ConstructionError (msg : string).

(** ** The error monad *)

Inductive result (A : Type) : Type :=
| Ok (a : A)
| Raise (e : exn).
Arguments Ok {A} a.
Arguments Raise {A} e.

Definition bind {A B : Type} (m : result A) (k : A -> result B) : result B :=
  match m with
  | Ok a => k a
  | Raise e => Raise e
  end.

Declare Scope py_scope.
Delimit Scope py_scope with py.
Notation "x <- m ;; k" := (bind m (fun x => k))
  (at level 61, m at next level, right associativity) : py_scope.
Open Scope py_scope.

(** A [for] loop over a list whose body updates an accumulator and may
    raise: the first exception aborts the loop. *)
Fixpoint for_each {A S : Type} (xs : list A) (body : A -> S -> result S)
         (s : S) : result S :=
  match xs with
  | [] => Ok s
  | x :: xs' => s' <- body x s ;; for_each xs' body s'
  end.

(** A list comprehension [[f x for x in xs]] whose element expression may
    raise. *)
Fixpoint comprehension {A B : Type} (f : A -> result B) (xs : list A)
  : result (list B) :=
  match xs with
  | [] => Ok []
  | x :: xs' => y <- f x ;; ys <- comprehension f xs' ;; Ok (y :: ys)
  end.

(** A filtering comprehension [[x for x in xs if p x]] whose condition may
    raise. *)
Fixpoint comprehension_if {A : Type} (p : A -> result bool) (xs : list A)
  : result (list A) :=
  match xs with
  | [] => Ok []
  | x :: xs' =>
      b <- p x ;; ys <- comprehension_if p xs' ;;
      Ok (if b then x :: ys else ys)
  end.

(** ** Dictionaries *)

Fixpoint dict_get (k : string) (d : dict) : option pyval :=
  match d with
  | [] => None
  | (k', v) :: d' => if String.eqb k k' then Some v else dict_get k d'
  end.

(** [k in d] *)
Definition dict_mem (k : string) (d : dict) : bool :=
  match dict_get k d with Some _ => true | None => false end.

(** [d.get(k, default)] *)
Definition dict_get_default (k : string) (default : pyval) (d : dict) : pyval :=
  match dict_get k d with Some v => v | None => default end.

(** [d[k] = v]: an existing key keeps its position, a new key goes last. *)
Fixpoint dict_set (k : string) (v : pyval) (d : dict) : dict :=
  match d with
  | [] => [(k, v)]
  | (k', v') :: d' =>
      if String.eqb k k' then (k, v) :: d' else (k', v') :: dict_set k v d'
  end.

(** [{**a, **b}]: the keys of [b] win. *)
Definition dict_merge (a b : dict) : dict :=
  fold_left (fun acc kv => dict_set (fst kv) (snd kv) acc) b a.

(** [k not in names] for a literal list of names. *)
Definition not_in_names (names : list string) (k : string) : bool :=
  negb (existsb (String.eqb k) names).

(** [{k: v for k, v in items if k not in names}] *)
Definition dict_without (names : list string) (items : dict) : dict :=
  filter (fun kv => not_in_names names (fst kv)) items.

(** ** Python primitives used by the provider *)

(** Truth value of an object, as tested by [if], [and], [or], [not]. *)
Definition truthy (v : pyval) : bool :=
  match v with
  | PNone => false
  | PBool b => b
  | PInt z => negb (Z.eqb z 0)
  | PFloat (S754_zero _) => false
  | PFloat _ => true
  | PStr s => negb (String.eqb s "")
  | PList l => match l with [] => false | _ => true end
  | PDict d => match d with [] => false | _ => true end
  end.

(** [isinstance(v, str)] *)
Definition is_str (v : pyval) : bool :=
  match v with PStr _ => true | _ => false end.

(** [v == s] for a string literal [s]: only a string compares equal. *)
Definition eq_str (v : pyval) (s : string) : bool :=
  match v with PStr s' => String.eqb s' s | _ => false end.

(** [sub in s] on strings: substring test. *)
Fixpoint substring_of (sub s : string) : bool :=
  if String.prefix sub s then true
  else match s with
       | EmptyString => false
       | String _ s' => substring_of sub s'
       end.

(** [key in container] for a string literal [key]: substring test on a
    string, key membership on a mapping, element membership on a list;
    other objects are not containers. *)
Definition py_contains (key : string) (container : pyval) : result bool :=
  match container with
  | PStr s => Ok (substring_of key s)
  | PDict d => Ok (dict_mem key d)
  | PList l => Ok (existsb (fun x => eq_str x key) l)
  | _ => Raise TypeError
  end.

(** [obj[key]] for a string literal [key]: only a mapping can be indexed
    by a string. *)
Definition py_getitem (obj : pyval) (key : string) : result pyval :=
  match obj with
  | PDict d =>
      match dict_get key d with
      | Some v => Ok v
      | None => Raise (KeyError (PStr key))
      end
  | _ => Raise TypeError
  end.

(** [obj[0]] *)
Definition py_getitem0 (obj : pyval) : result pyval :=
  match obj with
  | PList (x :: _) => Ok x
  | PList [] => Raise IndexError
  | PStr (String c _) => Ok (PStr (String c EmptyString))
  | PStr EmptyString => Raise IndexError
  | PDict _ => Raise (KeyError (PInt 0))
  | _ => Raise TypeError
  end.

Fixpoint chars (s : string) : list pyval :=
  match s with
  | EmptyString => []
  | String c s' => PStr (String c EmptyString) :: chars s'
  end.

(** The elements a [for] loop or a comprehension sees: the items of a list,
    the characters of a string, the keys of a mapping. *)
Definition py_iter (obj : pyval) : result (list pyval) :=
  match obj with
  | PList l => Ok l
  | PStr s => Ok (chars s)
  | PDict d => Ok (map (fun kv => PStr (fst kv)) d)
  | _ => Raise TypeError
  end.

(** [obj.get(key, None)]: a method of mappings only. *)
Definition py_get (obj : pyval) (key : string) : result pyval :=
  match obj with
  | PDict d => Ok (dict_get_default key PNone d)
  | _ => Raise AttributeError
  end.

(** [obj.items()]: a method of mappings only. *)
Definition py_items (obj : pyval) : result dict :=
  match obj with
  | PDict d => Ok d
  | _ => Raise AttributeError
  end.

(** ** Objects built by the provider *)

(** Modelled from the spec: the detector classes ([EntityRecognizer],
    [PatternRecognizer] and the predefined recognizers) live outside this
    module.  An instance is its class name, whether it is an instance of
    [PatternRecognizer], and its attributes. *)
Record EntityRecognizer : Type := {
  class_name : string;
  is_PatternRecognizer : bool;
  attributes : dict
}.

(** [obj.name = v] *)
Definition set_attribute (obj : EntityRecognizer) (name : string) (v : pyval)
  : EntityRecognizer :=
  {| class_name := class_name obj;
     is_PatternRecognizer := is_PatternRecognizer obj;
     attributes := dict_set name v (attributes obj) |}.

(** [obj.name] *)
Definition get_attribute (obj : EntityRecognizer) (name : string) : option pyval :=
  dict_get name (attributes obj).

(** Modelled from the spec: the registry class lives outside this module;
    called with [fields] as keyword arguments, it keeps the three values
    it is given. *)
Record RecognizerRegistry : Type := {
  registry_supported_languages : pyval;
  registry_recognizers : list EntityRecognizer;
  registry_global_regex_flags : pyval
}.

(** Flags of the [re] module. *)
Definition re_IGNORECASE : Z := 2.
Definition re_MULTILINE : Z := 8.
Definition re_DOTALL : Z := 16.

(** ** Files and the logger *)

(** [conf_file: Union[Path, str]] *)
Inductive conf_path : Type :=
| StrPath (s : string)
| PathObj (s : string).

Definition path_string (p : conf_path) : string :=
  match p with StrPath s => s | PathObj s => s end.

(** Truth value of [conf_file]: [None] and the empty string are false, a
    [Path] object is always true. *)
Definition conf_file_truthy (conf_file : option conf_path) : bool :=
  match conf_file with
  | None => false
  | Some (StrPath s) => negb (String.eqb s "")
  | Some (PathObj _) => true
  end.

(** Truth value of [registry_configuration]: [None] and the empty mapping
    are false. *)
Definition registry_configuration_truthy (rc : option dict) : bool :=
  match rc with
  | None => false
  | Some [] => false
  | Some (_ :: _) => true
  end.

(** What [yaml.safe_load(open(path))] finds at a path: [open] raises
    [IOError], the parser raises, or a document is loaded. *)
Inductive file_state : Type :=
| NoSuchFile
| Malformed
| Document (v : pyval).

Definition filesystem : Type := string -> file_state.

(** Observable effects of the configuration resolver, in order: [open] was
    called on a path, the logger was given a warning. *)
Inductive event : Type :=
| Opened (path : string)
| Warned (msg : string).

(** A computation that performs effects and then returns or raises. *)
Definition io (A : Type) : Type := (list event * result A)%type.

Definition io_ret {A : Type} (a : A) : io A := ([], Ok a).

Definition io_raise {A : Type} (e : exn) : io A := ([], Raise e).

Definition io_bind {A B : Type} (m : io A) (k : A -> io B) : io B :=
  match m with
  | (t, Ok a) => let (t', r) := k a in (t ++ t', r)
  | (t, Raise e) => (t, Raise e)
  end.

(** [try: m  except ...: handler] where the handler catches everything
    that [m] can raise. *)
Definition io_try {A : Type} (m : io A) (handler : exn -> io A) : io A :=
  match m with
  | (t, Ok a) => (t, Ok a)
  | (t, Raise e) => let (t', r) := handler e in (t ++ t', r)
  end.

Definition warning (msg : string) : io unit := ([Warned msg], Ok tt).

(** [isinstance(e, IOError)] *)
Definition is_IOError (e : exn) : bool :=
  match e with IOError => true | _ => false end.

(** ** The provider *)

(** [self]: the resolved configuration and the registry-wide language
    list, which is [None] until [create_recognizer_registry] sets it. *)
Record RecognizerRegistryProvider : Type := {
  configuration : dict;
  supported_languages : pyval
}.

(** A language scope [{"supported_language": ..., "context": ...}]. *)
Definition language_scope (language context : pyval) : dict :=
  [("supported_language", language); ("context", context)].

Section Provider.

(** The directory of the module, [Path(__file__).parent]. *)
Variable package_dir : string.

(** The files the process can see. *)
Variable fs : filesystem.

(** The namespace [presidio_analyzer.predefined_recognizers]: what a name
    is bound to, as the function that calling it with keyword arguments
    is. *)
Variable predefined_recognizers :
  string -> option (dict -> result EntityRecognizer).

(** [PatternRecognizer.from_dict] *)
Variable PatternRecognizer_from_dict : pyval -> result EntityRecognizer.

(** [_get_full_conf_path] (lines 251-256): the [conf] directory next to
    the module. *)
Definition _get_full_conf_path (default_conf_file : string) : conf_path :=
  PathObj (package_dir ++ "/" ++ "conf" ++ "/" ++ default_conf_file).

(** The default value of its parameter. *)
Definition default_conf_file : string := "default_recognizers.yaml".

(** [_add_missing_keys] (lines 53-57).  The file is opened and parsed
    before [configuration] is touched, so a failure leaves the caller's
    mapping as it was; a document that is not a mapping has no [items]. *)
Definition _add_missing_keys (configuration : dict) (conf_file : conf_path)
  : io dict :=
  let path := path_string conf_file in
  ([Opened path],
   match fs path with
   | NoSuchFile => Raise IOError
   | Malformed => Raise YAMLError
   | Document defaults =>
       items <- py_items defaults ;;
       Ok (dict_merge configuration
             (filter (fun kv => negb (dict_mem (fst kv) configuration))
                     items))
   end).

(** [_get_configuration] (lines 59-103).  Both handlers of the [try]
    load the default document; they differ in the warning. *)
Definition _get_configuration (conf_file : option conf_path)
           (registry_configuration : option dict) : io dict :=
  if conf_file_truthy conf_file
     && registry_configuration_truthy registry_configuration
  then
    io_raise (ValueError
      "Either conf_file or registry_configuration should be provided, not both.")
  else
    let configuration :=
      match registry_configuration with
      | Some d => if registry_configuration_truthy (Some d) then d else []
      | None => []
      end in
    match conf_file with
    | Some p =>
        if negb (conf_file_truthy (Some p)) then
          _add_missing_keys configuration
                            (_get_full_conf_path default_conf_file)
        else
          io_try (_add_missing_keys configuration p)
            (fun e =>
               if is_IOError e then
                 io_bind
                   (warning ("configuration file " ++ path_string p
                             ++ " not found.  Using default config."))
                   (fun _ => _add_missing_keys configuration
                               (_get_full_conf_path default_conf_file))
               else
                 io_bind
                   (warning ("Failed to parse file " ++ path_string p
                             ++ ", resorting to default"))
                   (fun _ => _add_missing_keys configuration
                               (_get_full_conf_path default_conf_file)))
    | None =>
        _add_missing_keys configuration
                          (_get_full_conf_path default_conf_file)
    end.

(** [__init__] (lines 42-51) *)
Definition init (conf_file : option conf_path)
           (registry_configuration : option dict)
  : io RecognizerRegistryProvider :=
  io_bind (_get_configuration conf_file registry_configuration)
    (fun c => io_ret {| configuration := c; supported_languages := PNone |}).

(** [_is_recognizer_enabled] (lines 105-108).  The value returned is the
    object the caller then tests for truth. *)
Definition _is_recognizer_enabled (recognizer : pyval) : result pyval :=
  c <- py_contains "enabled" recognizer ;;
  if negb c then Ok (PBool true) else py_getitem recognizer "enabled".

(** [_get_recognizer_name] (lines 110-115) *)
Definition _get_recognizer_name (recognizer : pyval) : result pyval :=
  if is_str recognizer then Ok recognizer
  else py_getitem recognizer "name".

(** [_get_recognizer_context] (lines 117-122) *)
Definition _get_recognizer_context (recognizer : pyval) : result pyval :=
  if is_str recognizer then Ok PNone
  else py_get recognizer "context".

(** [_get_recognizer_items] (lines 124-129) *)
Definition _get_recognizer_items (recognizer : pyval) : result dict :=
  if is_str recognizer then Ok []
  else py_items recognizer.

(** [_get_recognizer_languages] (lines 131-159): the three return
    statements, in order. *)
Definition _get_recognizer_languages (self : RecognizerRegistryProvider)
           (recognizer : pyval) : result (list dict) :=
  registry_wide <-
    (if is_str recognizer then Ok true
     else c <- py_contains "supported_languages" recognizer ;;
          Ok (negb c)) ;;
  if registry_wide then
    languages <- py_iter (supported_languages self) ;;
    comprehension
      (fun language =>
         context <- _get_recognizer_context recognizer ;;
         Ok (language_scope language context))
      languages
  else
    declared <- py_getitem recognizer "supported_languages" ;;
    first <- py_getitem0 declared ;;
    if is_str first then
      declared <- py_getitem recognizer "supported_languages" ;;
      languages <- py_iter declared ;;
      comprehension (fun language => Ok (language_scope language PNone))
                    languages
    else
      declared <- py_getitem recognizer "supported_languages" ;;
      languages <- py_iter declared ;;
      comprehension
        (fun language =>
           l <- py_getitem language "language" ;;
           c <- py_getitem language "context" ;;
           Ok (language_scope l c))
        languages.

(** The condition of the first comprehension of [_split_recognizers]. *)
Definition is_predefined (recognizer : pyval) : result bool :=
  if is_str recognizer then Ok true
  else c <- py_contains "type" recognizer ;;
       if c then t <- py_getitem recognizer "type" ;;
                 Ok (eq_str t "predefined")
       else Ok false.

(** The condition of the second comprehension of [_split_recognizers]. *)
Definition is_custom (recognizer : pyval) : result bool :=
  if negb (is_str recognizer) then
    c <- py_contains "type" recognizer ;;
    if negb c then Ok true
    else t <- py_getitem recognizer "type" ;;
         Ok (eq_str t "custom")
  else Ok false.

(** [_split_recognizers] (lines 161-182) *)
Definition _split_recognizers (recognizers : pyval)
  : result (list pyval * list pyval) :=
  items <- py_iter recognizers ;;
  predefined <- comprehension_if is_predefined items ;;
  items <- py_iter recognizers ;;
  custom <- comprehension_if is_custom items ;;
  Ok (predefined, custom).

(** [_create_custom_recognizers] (lines 184-198) *)
Definition _create_custom_recognizers (self : RecognizerRegistryProvider)
           (recognizer : pyval) : result (list EntityRecognizer) :=
  legacy <- py_contains "supported_language" recognizer ;;
  if legacy then
    r <- PatternRecognizer_from_dict recognizer ;;
    Ok [r]
  else
    languages <- _get_recognizer_languages self recognizer ;;
    for_each languages
      (fun supported_language recognizers =>
         items <- py_items recognizer ;;
         let copied_recognizer :=
           dict_without ["enabled"; "type"; "supported_languages"] items in
         let kwargs := dict_merge copied_recognizer supported_language in
         r <- PatternRecognizer_from_dict (PDict kwargs) ;;
         Ok (recognizers ++ [r]))
      [].

(** [default_values] (lines 200-204) *)
Definition default_values : dict :=
  [("supported_languages", PList [PStr "en"]);
   ("recognizers", PList []);
   ("global_regex_flags",
    PInt (Z.lor (Z.lor re_DOTALL re_MULTILINE) re_IGNORECASE))].

(** The first loop of [create_recognizer_registry] (lines 208-220): every
    field is read from the configuration, or from [default_values] when
    the key is absent.  (The warning logged for an absent key does not
    change the result and is left out.) *)
Definition resolve_fields (configuration : dict) : result dict :=
  for_each ["supported_languages"; "recognizers"; "global_regex_flags"]
    (fun field fields =>
       default <- py_getitem (PDict default_values) field ;;
       Ok (dict_set field (dict_get_default field default configuration)
                    fields))
    [("supported_languages", PNone); ("recognizers", PNone);
     ("global_regex_flags", PNone)].

(** [getattr(presidio_analyzer.predefined_recognizers, name, None)]
    called with [kwargs] as keyword arguments: the attribute name must be
    a string, and an absent attribute gives [None], which is then
    called. *)
Definition call_predefined (name : pyval) (kwargs : dict)
  : result EntityRecognizer :=
  match name with
  | PStr s =>
      match predefined_recognizers s with
      | Some cls => cls kwargs
      | None => Raise TypeError
      end
  | _ => Raise TypeError
  end.

(** The body of the loop over the predefined entries (lines 227-237). *)
Definition predefined_body (self : RecognizerRegistryProvider)
           (recognizer : pyval) (recognizer_instances : list EntityRecognizer)
  : result (list EntityRecognizer) :=
  languages <- _get_recognizer_languages self recognizer ;;
  for_each languages
    (fun language recognizer_instances =>
       enabled <- _is_recognizer_enabled recognizer ;;
       if truthy enabled then
         items <- _get_recognizer_items recognizer ;;
         let copied_recognizer :=
           dict_without ["enabled"; "type"; "supported_languages"; "name"]
                        items in
         let kwargs := dict_merge copied_recognizer language in
         name <- _get_recognizer_name recognizer ;;
         r <- call_predefined name kwargs ;;
         Ok (recognizer_instances ++ [r])
       else Ok recognizer_instances)
    recognizer_instances.

(** The body of the loop over the custom entries (lines 240-241). *)
Definition custom_body (self : RecognizerRegistryProvider)
           (recognizer : pyval) (recognizer_instances : list EntityRecognizer)
  : result (list EntityRecognizer) :=
  enabled <- _is_recognizer_enabled recognizer ;;
  if truthy enabled then
    created <- _create_custom_recognizers self recognizer ;;
    Ok (recognizer_instances ++ created)
  else Ok recognizer_instances.

(** The body of the last loop (lines 244-245): the global flags overwrite
    the attribute of every pattern recognizer. *)
Definition flags_body (fields : dict) (recognizer : EntityRecognizer)
  : result EntityRecognizer :=
  if is_PatternRecognizer recognizer then
    flags <- py_getitem (PDict fields) "global_regex_flags" ;;
    Ok (set_attribute recognizer "global_regex_flags" flags)
  else Ok recognizer.

(** [create_recognizer_registry] (lines 206-249) *)
Definition create_recognizer_registry (self : RecognizerRegistryProvider)
  : result RecognizerRegistry :=
  fields <- resolve_fields (configuration self) ;;
  languages <- py_getitem (PDict fields) "supported_languages" ;;
  let self := {| configuration := configuration self;
                 supported_languages := languages |} in
  recognizers <- py_getitem (PDict fields) "recognizers" ;;
  split <- _split_recognizers recognizers ;;
  let predefined := fst split in
  let custom := snd split in
  recognizer_instances <- for_each predefined (predefined_body self) [] ;;
  recognizer_instances <-
    for_each custom (custom_body self) recognizer_instances ;;
  recognizer_instances <-
    comprehension (flags_body fields) recognizer_instances ;;
  languages <- py_getitem (PDict fields) "supported_languages" ;;
  flags <- py_getitem (PDict fields) "global_regex_flags" ;;
  Ok {| registry_supported_languages := languages;
        registry_recognizers := recognizer_instances;
        registry_global_regex_flags := flags |}.

(** Constructing the provider and assembling the registry, with the
    effects of the construction. *)
Definition provide (conf_file : option conf_path)
           (registry_configuration : option dict)
  : io RecognizerRegistry :=
  io_bind (init conf_file registry_configuration)
    (fun self => ([], create_recognizer_registry self)).

End Provider.

(** ** The analyzer engine provider *)

(** [self] of [AnalyzerEngineProvider] in [analyzer_engine_provider.py]:
    the loaded document, whatever it is. *)
Record AnalyzerEngineProvider : Type := {
  engine_configuration : pyval
}.

(** [obj.get(key, default)]: a method of mappings only. *)
Definition py_get_default (obj : pyval) (key : string) (default : pyval)
  : result pyval :=
  match obj with
  | PDict d => Ok (dict_get_default key default d)
  | _ => Raise AttributeError
  end.

Section EngineProvider.

(** The directory of the module of the registry provider and the files
    the process can see. *)
Variable package_dir : string.
Variable fs : filesystem.

(** [os.path.exists] *)
Variable path_exists : string -> bool.

(** The NLP engines, and [NlpEngineProvider(nlp_configuration=c)] followed
    by [create_engine()]. *)
Variable NlpEngine : Type.
Variable NlpEngineProvider_create_engine : pyval -> result NlpEngine.

(** The analyzer engines, and the constructor [AnalyzerEngine] with its
    four keyword arguments: [nlp_engine], [registry],
    [supported_languages], [default_score_threshold]. *)
Variable AnalyzerEngine : Type.
Variable AnalyzerEngine_new :
  option NlpEngine -> option RecognizerRegistry -> pyval -> pyval ->
  result AnalyzerEngine.

(** [AnalyzerEngineProvider.__init__] (lines 22-31) *)
Definition engine_init (conf_file : option conf_path)
  : io AnalyzerEngineProvider :=
  match conf_file with
  | Some p =>
      if negb (conf_file_truthy (Some p))
         || negb (path_exists (path_string p))
      then
        io_bind
          (warning
             "configuration file is missing. Using default configuration for analyzer engine")
          (fun _ => io_ret {| engine_configuration := PDict [] |})
      else
        ([Opened (path_string p)],
         match fs (path_string p) with
         | NoSuchFile => Raise IOError
         | Malformed => Raise YAMLError
         | Document v => Ok {| engine_configuration := v |}
         end)
  | None =>
      io_bind
        (warning
           "configuration file is missing. Using default configuration for analyzer engine")
        (fun _ => io_ret {| engine_configuration := PDict [] |})
  end.

(** [RecognizerRegistryProvider(registry_configuration=value)] for a value
    of any type, as [_load_recognizer_registry] calls it.  A mapping is
    the case of [init].  Another true object is first copied: a list has
    a [copy], and then fails at [configuration.update] once the default
    document is loaded; the other objects have no [copy].  A false object
    is no configuration. *)
Definition provider_of_value (value : pyval)
  : io RecognizerRegistryProvider :=
  match value with
  | PDict d => init package_dir fs None (Some d)
  | PList (_ :: _) =>
      let path :=
        path_string (_get_full_conf_path package_dir default_conf_file) in
      ([Opened path],
       match fs path with
       | NoSuchFile => Raise IOError
       | Malformed => Raise YAMLError
       | Document _ => Raise AttributeError
       end)
  | _ =>
      if truthy value then io_raise AttributeError
      else init package_dir fs None None
  end.

(** [_load_recognizer_registry] (lines 62-70).  The class
    [RecognizerRegistryProvider] has no method
    [create_engine_recognizer_registry]: looking it up on the provider
    raises. *)
Definition _load_recognizer_registry (self : AnalyzerEngineProvider)
  : io (option RecognizerRegistry) :=
  match py_contains "recognizer_registry" (engine_configuration self) with
  | Raise e => io_raise e
  | Ok false =>
      io_bind
        (warning
           "configuration file is missing 'recognizer_registry'. Using default configuration for recognizer registry")
        (fun _ => io_ret None)
  | Ok true =>
      match py_getitem (engine_configuration self) "recognizer_registry" with
      | Raise e => io_raise e
      | Ok registry_configuration =>
          io_bind (provider_of_value registry_configuration)
            (fun provider => io_raise AttributeError)
      end
  end.

(** [_load_nlp_engine] (lines 72-80) *)
Definition _load_nlp_engine (self : AnalyzerEngineProvider)
  : io (option NlpEngine) :=
  match py_contains "nlp_configuration" (engine_configuration self) with
  | Raise e => io_raise e
  | Ok false =>
      io_bind
        (warning
           "configuration file is missing 'nlp_configuration'. Using default configuration for nlp engine")
        (fun _ => io_ret None)
  | Ok true =>
      match py_getitem (engine_configuration self) "nlp_configuration" with
      | Raise e => io_raise e
      | Ok nlp_configuration =>
          match NlpEngineProvider_create_engine nlp_configuration with
          | Raise e => io_raise e
          | Ok engine => io_ret (Some engine)
          end
      end
  end.

(** [create_engine] (lines 34-60).  The two settings are read from the
    top level of the document, and only when it has the key
    [analyzer_engine]. *)
Definition create_engine (self : AnalyzerEngineProvider)
  : io AnalyzerEngine :=
  io_bind (_load_nlp_engine self) (fun nlp_engine =>
  io_bind (_load_recognizer_registry self) (fun registry =>
  match py_contains "analyzer_engine" (engine_configuration self) with
  | Raise e => io_raise e
  | Ok false =>
      io_bind
        (warning
           "configuration file is missing 'analyzer_engine'. Using default configuration for analyzer engine")
        (fun _ => ([], AnalyzerEngine_new nlp_engine registry
                                          (PStr "en") (PInt 0)))
  | Ok true =>
      match py_get_default (engine_configuration self)
                           "supported_languages" (PStr "en") with
      | Raise e => io_raise e
      | Ok supported_languages =>
          match py_get_default (engine_configuration self)
                               "default_score_threshold" (PInt 0) with
          | Raise e => io_raise e
          | Ok default_score_threshold =>
              ([], AnalyzerEngine_new nlp_engine registry
                                      supported_languages
                                      default_score_threshold)
          end
      end
  end)).

(** Constructing the engine provider and creating the engine. *)
Definition provide_engine (conf_file : option conf_path)
  : io AnalyzerEngine :=
  io_bind (engine_init conf_file) create_engine.

End EngineProvider.

(** ** Notions used in the statements *)

(** What one element adds to a loop that runs [contrib] on the elements a
    filtering comprehension kept. *)
Definition selected {A B : Type} (p : A -> result bool)
           (contrib : A -> result (list B)) (x : A) : result (list B) :=
  b <- p x ;; if b then contrib x else Ok [].

(** The value each top-level key resolves to: the configuration's own, or
    the default. *)
Definition resolved_languages (cfg : dict) : pyval :=
  dict_get_default "supported_languages" (PList [PStr "en"]) cfg.

Definition resolved_recognizers (cfg : dict) : pyval :=
  dict_get_default "recognizers" (PList []) cfg.

Definition resolved_flags (cfg : dict) : pyval :=
  dict_get_default "global_regex_flags"
    (PInt (Z.lor (Z.lor re_DOTALL re_MULTILINE) re_IGNORECASE)) cfg.

(** What the last loop of [create_recognizer_registry] does to one
    instance. *)
Definition with_flags (flags : pyval) (r : EntityRecognizer)
  : EntityRecognizer :=
  if is_PatternRecognizer r then set_attribute r "global_regex_flags" flags else r.

(** The provider whose configuration declares exactly [entries] under the
    key [recognizers], everything else as in [self]. *)
Definition with_recognizers (self : RecognizerRegistryProvider)
           (entries : list pyval) : RecognizerRegistryProvider :=
  {| configuration := dict_set "recognizers" (PList entries)
                               (configuration self);
     supported_languages := supported_languages self |}.

(** The provider as [__init__] leaves it, for a resolved configuration. *)
Definition provider_of (cfg : dict) : RecognizerRegistryProvider :=
  {| configuration := cfg; supported_languages := PNone |}.

(** The entry is enabled: the check returns a true object. *)
Definition enabled_entry (recognizer : pyval) : Prop :=
  exists v, _is_recognizer_enabled recognizer = Ok v /\ truthy v = true.


(** What a predefined entry builds for one language scope: the body of the
    inner loop, started from no instances. *)
Definition predefined_scope_instances
           (lib : string -> option (dict -> result EntityRecognizer))
           (recognizer : pyval) (language : dict)
  : result (list EntityRecognizer) :=
  enabled <- _is_recognizer_enabled recognizer ;;
  if truthy enabled then
    items <- _get_recognizer_items recognizer ;;
    name <- _get_recognizer_name recognizer ;;
    r <- call_predefined lib name
           (dict_merge
              (dict_without ["enabled"; "type"; "supported_languages"; "name"]
                            items)
              language) ;;
    Ok [r]
  else Ok [].

(** What one entry adds to the registry in the loop over the predefined
    entries, and in the loop over the custom entries. *)
Definition predefined_instances
           (lib : string -> option (dict -> result EntityRecognizer))
           (self : RecognizerRegistryProvider) (recognizer : pyval)
  : result (list EntityRecognizer) :=
  predefined_body lib self recognizer [].

Definition custom_instances (from_dict : pyval -> result EntityRecognizer)
           (self : RecognizerRegistryProvider) (recognizer : pyval)
  : result (list EntityRecognizer) :=
  custom_body from_dict self recognizer [].

(** [self] once [create_recognizer_registry] has stored the registry-wide
    languages in it. *)
Definition resolved_self (self : RecognizerRegistryProvider)
  : RecognizerRegistryProvider :=
  {| configuration := configuration self;
     supported_languages := resolved_languages (configuration self) |}.

(** The registry assembled from the instances the two loops built. *)
Definition assembled (self : RecognizerRegistryProvider)
           (instances : list EntityRecognizer) : RecognizerRegistry :=
  {| registry_supported_languages := resolved_languages (configuration self);
     registry_recognizers :=
       map (with_flags (resolved_flags (configuration self))) instances;
     registry_global_regex_flags := resolved_flags (configuration self) |}.

(** What the two loops add for one entry, in the provider whose
    languages are resolved. *)
Definition adds_predefined
           (lib : string -> option (dict -> result EntityRecognizer))
           (self : RecognizerRegistryProvider)
           (e : pyval) (l : list EntityRecognizer) : Prop :=
  selected is_predefined (predefined_instances lib (resolved_self self)) e
  = Ok l.

Definition adds_custom (from_dict : pyval -> result EntityRecognizer)
           (self : RecognizerRegistryProvider)
           (e : pyval) (l : list EntityRecognizer) : Prop :=
  selected is_custom (custom_instances from_dict (resolved_self self)) e
  = Ok l.

(** The entry declares no language of its own: a bare name, or a mapping
    with neither [supported_language] nor [supported_languages]. *)
Definition no_language_field (e : pyval) : Prop :=
  match e with
  | PStr _ => True
  | PDict d => dict_mem "supported_language" d = false
               /\ dict_mem "supported_languages" d = false
  | _ => False
  end.

(** The [type] of the entry is one the data model has: a bare name, or a
    mapping whose [type] is absent, ["predefined"] or ["custom"]. *)
Definition known_type (e : pyval) : Prop :=
  match e with
  | PStr _ => True
  | PDict d =>
      match dict_get "type" d with
      | None => True
      | Some t => t = PStr "predefined" \/ t = PStr "custom"
      end
  | _ => False
  end.

(** The instance [r] of the registry was built for the entry [e] with
    keyword arguments that bind [supported_language] to [language], by the
    predefined class the entry names or by [PatternRecognizer.from_dict],
    and then given the global flags. *)
Definition built_for
           (lib : string -> option (dict -> result EntityRecognizer))
           (from_dict : pyval -> result EntityRecognizer)
           (flags : pyval) (e : pyval) (language : pyval)
           (r : EntityRecognizer) : Prop :=
  exists kwargs r0,
    dict_get "supported_language" kwargs = Some language
    /\ ((exists name, _get_recognizer_name e = Ok name
                      /\ call_predefined lib name kwargs = Ok r0)
        \/ from_dict (PDict kwargs) = Ok r0)
    /\ r = with_flags flags r0.

(** The exception is the usage error of the constructor. *)
Definition raises_ValueError {A : Type} (r : result A) : bool :=
  match r with
  | Raise (ValueError _) => true
  | _ => false
  end.

(** The path of the packaged default document, as [open] receives it. *)
Definition default_document_path (package_dir : string) : string :=
  path_string (_get_full_conf_path package_dir default_conf_file).

(** The entry is a number, a boolean or [None]: not a name, not a
    mapping, not a container of any kind. *)
Definition is_scalar (e : pyval) : bool :=
  match e with
  | PNone | PBool _ | PInt _ | PFloat _ => true
  | _ => false
  end.

(** What the keyword arguments built for one language scope hold: the
    two keys of the scope with the values of the scope, nothing under the
    excluded names, and the fields of the entry under every other key. *)
Definition kwargs_law (excluded : list string) (items scope kwargs : dict)
  : Prop :=
  forall k,
    dict_get k kwargs
    = if String.eqb k "supported_language" || String.eqb k "context"
      then dict_get k scope
      else if existsb (String.eqb k) excluded then None
           else dict_get k items.

(** ** A small world for the examples *)

(** A class that keeps its keyword arguments as attributes. *)
Definition sample_class (name : string) (pattern : bool) (kwargs : dict)
  : result EntityRecognizer :=
  Ok {| class_name := name;
        is_PatternRecognizer := pattern;
        attributes := kwargs |}.

(** A library with one pattern-based and one other predefined class. *)
Definition sample_library (name : string)
  : option (dict -> result EntityRecognizer) :=
  if String.eqb name "CreditCardRecognizer" then Some (sample_class name true)
  else if String.eqb name "SpacyRecognizer" then Some (sample_class name false)
  else None.

(** A restrictive build of the library: no [CreditCardRecognizer]. *)
Definition restricted_library (name : string)
  : option (dict -> result EntityRecognizer) :=
  if String.eqb name "SpacyRecognizer" then Some (sample_class name false)
  else None.

(** A pattern recognizer needs [patterns] and [supported_entity]. *)
Definition sample_from_dict (v : pyval) : result EntityRecognizer :=
  match v with
  | PDict d =>
      if truthy (dict_get_default "patterns" PNone d)
         && dict_mem "supported_entity" d
      then sample_class "PatternRecognizer" true d
      else Raise (ValueError "a pattern recognizer needs patterns and an entity")
  | _ => Raise AttributeError
  end.

Definition sample_patterns : pyval :=
  PList [PDict [("name", PStr "zip code (weak)");
                ("regex", PStr "(\b\d{5}(?:\-\d{4})?\b)");
                ("score", PFloat (S754_finite false 5764607523034235 (-59)))]].

(** The entry of the class docstring: a legacy custom entry. *)
Definition legacy_zip : dict :=
  [("name", PStr "Zip code Recognizer");
   ("supported_language", PStr "en");
   ("patterns", sample_patterns);
   ("context", PList [PStr "zip"; PStr "code"]);
   ("supported_entity", PStr "ZIP")].

(** A custom entry with no language field. *)
Definition plain_zip : dict :=
  [("name", PStr "Zip code Recognizer");
   ("type", PStr "custom");
   ("patterns", sample_patterns);
   ("supported_entity", PStr "ZIP")].

(** A disabled predefined entry. *)
Definition disabled_credit_card : dict :=
  [("name", PStr "CreditCardRecognizer");
   ("type", PStr "predefined");
   ("enabled", PBool false)].

(** A predefined entry with the singular language field. *)
Definition singular_credit_card : dict :=
  [("name", PStr "CreditCardRecognizer");
   ("type", PStr "predefined");
   ("supported_language", PStr "en")].

(** Entries that declare their languages, in the two forms. *)
Definition coded_zip : dict :=
  [("name", PStr "Zip code Recognizer");
   ("supported_languages", PList [PStr "en"; PStr "de"]);
   ("patterns", sample_patterns);
   ("supported_entity", PStr "ZIP")].


Definition english : RecognizerRegistryProvider :=
  provider_of [("supported_languages", PList [PStr "en"])].

Definition english_german : RecognizerRegistryProvider :=
  provider_of [("supported_languages", PList [PStr "en"; PStr "de"])].

Definition no_language : RecognizerRegistryProvider :=
  provider_of [("supported_languages", PList [])].

(** A file system with the packaged default document and nothing else
    readable. *)
Definition sample_fs : filesystem :=
  fun path =>
    if String.eqb path "/pkg/conf/default_recognizers.yaml" then
      Document (PDict [("supported_languages", PList [PStr "en"]);
                       ("recognizers", PList [PStr "CreditCardRecognizer"])])
    else if String.eqb path "broken.yaml" then Malformed
    else NoSuchFile.

(** A mapping of an unknown type, a predefined entry disabled by [0],
    and entries with a broken language list. *)
Definition regex_entry : dict :=
  [("name", PStr "Zip code Recognizer"); ("type", PStr "regex");
   ("patterns", sample_patterns); ("supported_entity", PStr "ZIP")].

Definition zero_enabled_credit_card : dict :=
  [("name", PStr "CreditCardRecognizer");
   ("type", PStr "predefined");
   ("enabled", PInt 0)].

Definition disabled_without_languages : dict :=
  [("name", PStr "CreditCardRecognizer");
   ("type", PStr "predefined");
   ("enabled", PBool false);
   ("supported_languages", PList [])].

Definition scoped_without_context : dict :=
  [("name", PStr "Zip code Recognizer");
   ("supported_languages",
    PList [PDict [("language", PStr "en");
                  ("context", PList [PStr "zip"])];
           PDict [("language", PStr "de")]]);
   ("patterns", sample_patterns);
   ("supported_entity", PStr "ZIP")].

(** A custom entry with plain language codes and a context of its own. *)
Definition coded_zip_with_context : dict :=
  [("name", PStr "Zip code Recognizer");
   ("type", PStr "custom");
   ("enabled", PBool true);
   ("supported_languages", PList [PStr "en"; PStr "de"]);
   ("context", PList [PStr "zip"; PStr "code"]);
   ("patterns", sample_patterns);
   ("supported_entity", PStr "ZIP")].

(** A predefined entry with languages and a field of its own. *)
Definition scored_credit_card : dict :=
  [("name", PStr "CreditCardRecognizer");
   ("type", PStr "predefined");
   ("supported_languages", PList [PStr "en"; PStr "de"]);
   ("supported_entity", PStr "CARD")].

(** The default document of [sample_fs]. *)
Definition sample_default_document : dict :=
  [("supported_languages", PList [PStr "en"]);
   ("recognizers", PList [PStr "CreditCardRecognizer"])].

(** An inline mapping with every top-level key. *)
Definition complete_inline : dict :=
  [("supported_languages", PList [PStr "de"]);
   ("recognizers", PList []);
   ("global_regex_flags", PInt 2)].

(** A world for the engine provider: what exists is what [sample_fs] can
    open, the NLP provider always gives the same engine, and an engine
    keeps its four arguments. *)
Definition sample_exists (path : string) : bool :=
  match sample_fs path with
  | NoSuchFile => false
  | _ => true
  end.

Definition sample_nlp (nlp_configuration : pyval) : result string :=
  Ok "spacy".

Record SampleEngine : Type := {
  engine_nlp : option string;
  engine_registry : option RecognizerRegistry;
  engine_languages : pyval;
  engine_threshold : pyval
}.

Definition sample_engine (nlp : option string)
           (registry : option RecognizerRegistry)
           (languages threshold : pyval) : result SampleEngine :=
  Ok {| engine_nlp := nlp; engine_registry := registry;
        engine_languages := languages; engine_threshold := threshold |}.

(** * Properties *)

(** ** The error monad and the loops *)

Lemma bind_Ok {A B : Type} (m : result A) (k : A -> result B) (b : B) :
  bind m k = Ok b <-> exists a, m = Ok a /\ k a = Ok b.
Proof.
  split.
  - destruct m as [a|e]; simpl; intros H; [eauto | discriminate].
  - intros (a & -> & H). exact H.
Qed.

Lemma for_each_app {A S : Type} (xs ys : list A) (body : A -> S -> result S)
      (s : S) :
  for_each (xs ++ ys) body s = (s' <- for_each xs body s ;; for_each ys body s').
Proof.
  revert s. induction xs as [|x xs IH]; intros s; simpl; [reflexivity|].
  destruct (body x s); simpl; [apply IH | reflexivity].
Qed.

(** A loop whose body only appends what it builds from the element is the
    concatenation of what it builds from each element. *)
Lemma for_each_appends {A B : Type} (contrib : A -> result (list B))
      (body : A -> list B -> result (list B)) :
  (forall x acc, body x acc = (l <- contrib x ;; Ok (acc ++ l))) ->
  forall xs acc,
    for_each xs body acc
    = (ls <- comprehension contrib xs ;; Ok (acc ++ List.concat ls)).
Proof.
  intros Hbody. induction xs as [|x xs IH]; intros acc; simpl.
  - now rewrite app_nil_r.
  - rewrite Hbody. destruct (contrib x) as [l|e]; simpl; [|reflexivity].
    rewrite IH. destruct (comprehension contrib xs); simpl; [|reflexivity].
    now rewrite app_assoc.
Qed.

Lemma comprehension_Ok {A B : Type} (f : A -> result B) (xs : list A)
      (ys : list B) :
  comprehension f xs = Ok ys <-> Forall2 (fun x y => f x = Ok y) xs ys.
Proof.
  revert ys. induction xs as [|x xs IH]; intros ys; simpl.
  - split; intros H.
    + injection H as <-. constructor.
    + inversion H. reflexivity.
  - split; intros H.
    + apply bind_Ok in H as (y & Hy & H).
      apply bind_Ok in H as (ys' & Hys & H).
      injection H as <-. constructor; [exact Hy | now apply IH].
    + inversion H as [|? y ? ys' Hy Hys]; subst.
      rewrite Hy. simpl. apply IH in Hys. rewrite Hys. reflexivity.
Qed.

Lemma comprehension_pure {A B : Type} (f : A -> result B) (g : A -> B)
      (xs : list A) :
  (forall x, f x = Ok (g x)) -> comprehension f xs = Ok (map g xs).
Proof.
  intros H. induction xs as [|x xs IH]; simpl; [reflexivity|].
  now rewrite H, IH.
Qed.

Lemma comprehension_length {A B : Type} (f : A -> result B) (xs : list A)
      (ys : list B) :
  comprehension f xs = Ok ys -> List.length ys = List.length xs.
Proof.
  intros H. apply comprehension_Ok in H.
  induction H; simpl; congruence.
Qed.

Lemma selected_loop_Ok {A B : Type} (p : A -> result bool)
      (contrib : A -> result (list B)) (xs : list A) (r : list B) :
  (exists sel ls, comprehension_if p xs = Ok sel
                  /\ comprehension contrib sel = Ok ls /\ r = List.concat ls)
  <-> (exists ls, Forall2 (fun x l => selected p contrib x = Ok l) xs ls
                  /\ r = List.concat ls).
Proof.
  revert r. induction xs as [|x xs IH]; intros r; simpl.
  - split.
    + intros (sel & ls & Hs & Hl & ->). injection Hs as <-.
      simpl in Hl. injection Hl as <-. exists []. split; constructor.
    + intros (ls & H & ->). inversion H; subst.
      exists [], []. repeat split.
  - split.
    + intros (sel & ls & Hs & Hl & ->).
      apply bind_Ok in Hs as (b & Hb & Hs).
      apply bind_Ok in Hs as (sel' & Hsel & Hs). injection Hs as <-.
      destruct b.
      * simpl in Hl. apply bind_Ok in Hl as (l & Hx & Hl).
        apply bind_Ok in Hl as (ls' & Hls & Hl). injection Hl as <-.
        destruct (proj1 (IH (List.concat ls'))) as (lsx & HF & Hc);
          [now exists sel', ls'|].
        exists (l :: lsx). split.
        -- constructor; [|exact HF]. unfold selected. now rewrite Hb.
        -- simpl. now rewrite Hc.
      * destruct (proj1 (IH (List.concat ls))) as (lsx & HF & Hc);
          [now exists sel', ls|].
        exists ([] :: lsx). split.
        -- constructor; [|exact HF]. unfold selected. now rewrite Hb.
        -- exact Hc.
    + intros (ls & H & ->).
      inversion H as [|? l ? ls' Hx HF]; subst.
      destruct (proj2 (IH (List.concat ls'))) as (sel & lsx & Hs & Hl & Hc);
        [now exists ls'|].
      unfold selected in Hx. apply bind_Ok in Hx as (b & Hb & Hx).
      rewrite Hb, Hs. simpl. destruct b.
      * exists (x :: sel), (l :: lsx). simpl. rewrite Hx, Hl. simpl.
        repeat split. now rewrite Hc.
      * injection Hx as <-. exists sel, lsx. repeat split; assumption.
Qed.

(** ** Dictionaries *)

Lemma dict_get_set_same (k : string) (v : pyval) (d : dict) :
  dict_get k (dict_set k v d) = Some v.
Proof.
  induction d as [|[k' v'] d IH]; simpl.
  - now rewrite String.eqb_refl.
  - destruct (String.eqb k k') eqn:E; simpl.
    + now rewrite String.eqb_refl.
    + now rewrite E.
Qed.

Lemma dict_get_set_other (k k' : string) (v : pyval) (d : dict) :
  k <> k' -> dict_get k' (dict_set k v d) = dict_get k' d.
Proof.
  intros Hne. induction d as [|[k0 v0] d IH]; simpl.
  - destruct (String.eqb_spec k' k); [congruence | reflexivity].
  - destruct (String.eqb_spec k k0) as [->|Hk]; simpl.
    + destruct (String.eqb_spec k' k0); [congruence | reflexivity].
    + now rewrite IH.
Qed.

(** ** Assembling the registry *)

Section Assembly.

Variable lib : string -> option (dict -> result EntityRecognizer).
Variable from_dict : pyval -> result EntityRecognizer.

Lemma resolve_fields_eq (cfg : dict) :
  resolve_fields cfg
  = Ok [("supported_languages", resolved_languages cfg);
        ("recognizers", resolved_recognizers cfg);
        ("global_regex_flags", resolved_flags cfg)].
Proof. reflexivity. Qed.

(** [create_recognizer_registry] once the fields are resolved. *)
Lemma create_unfold (self : RecognizerRegistryProvider) :
  create_recognizer_registry lib from_dict self
  = (let cfg := configuration self in
     let self' := {| configuration := cfg;
                     supported_languages := resolved_languages cfg |} in
     split <- _split_recognizers (resolved_recognizers cfg) ;;
     a <- for_each (fst split) (predefined_body lib self') [] ;;
     b <- for_each (snd split) (custom_body from_dict self') a ;;
     Ok {| registry_supported_languages := resolved_languages cfg;
           registry_recognizers := map (with_flags (resolved_flags cfg)) b;
           registry_global_regex_flags := resolved_flags cfg |}).
Proof.
  unfold create_recognizer_registry. rewrite resolve_fields_eq.
  cbn [bind py_getitem dict_get String.eqb Ascii.eqb Bool.eqb].
  simpl.
  destruct (_split_recognizers _) as [split|e]; simpl; [|reflexivity].
  destruct (for_each (fst split) _ _) as [a|e]; simpl; [|reflexivity].
  destruct (for_each (snd split) _ _) as [b|e]; simpl; [|reflexivity].
  rewrite (comprehension_pure _ (with_flags (resolved_flags (configuration self)))).
  - reflexivity.
  - intros r. unfold flags_body, with_flags.
    destruct (is_PatternRecognizer r); reflexivity.
Qed.

Lemma languages_only (self1 self2 : RecognizerRegistryProvider)
      (recognizer : pyval) :
  supported_languages self1 = supported_languages self2 ->
  _get_recognizer_languages self1 recognizer
  = _get_recognizer_languages self2 recognizer.
Proof.
  intros H. unfold _get_recognizer_languages. now rewrite H.
Qed.

Lemma predefined_body_languages_only (self1 self2 : RecognizerRegistryProvider)
      (recognizer : pyval) (acc : list EntityRecognizer) :
  supported_languages self1 = supported_languages self2 ->
  predefined_body lib self1 recognizer acc
  = predefined_body lib self2 recognizer acc.
Proof.
  intros H. unfold predefined_body.
  now rewrite (languages_only self1 self2 recognizer H).
Qed.

Lemma custom_body_languages_only (self1 self2 : RecognizerRegistryProvider)
      (recognizer : pyval) (acc : list EntityRecognizer) :
  supported_languages self1 = supported_languages self2 ->
  custom_body from_dict self1 recognizer acc
  = custom_body from_dict self2 recognizer acc.
Proof.
  intros H. unfold custom_body, _create_custom_recognizers.
  now rewrite (languages_only self1 self2 recognizer H).
Qed.

(** The loop over the scopes of a predefined entry appends, scope by
    scope, what [predefined_scope_instances] builds. *)
Lemma predefined_body_scopes (self : RecognizerRegistryProvider)
      (recognizer : pyval) (acc : list EntityRecognizer) :
  predefined_body lib self recognizer acc
  = (languages <- _get_recognizer_languages self recognizer ;;
     ls <- comprehension (predefined_scope_instances lib recognizer)
                         languages ;;
     Ok (acc ++ List.concat ls)).
Proof.
  unfold predefined_body.
  destruct (_get_recognizer_languages self recognizer) as [languages|e];
    simpl; [|reflexivity].
  apply for_each_appends. intros language acc'.
  unfold predefined_scope_instances.
  destruct (_is_recognizer_enabled recognizer) as [v|e]; simpl;
    [|reflexivity].
  destruct (truthy v); simpl; [|now rewrite app_nil_r].
  destruct (_get_recognizer_items recognizer); simpl; [|reflexivity].
  destruct (_get_recognizer_name recognizer); simpl; [|reflexivity].
  destruct (call_predefined _ _ _); reflexivity.
Qed.

Lemma predefined_body_appends (self : RecognizerRegistryProvider)
      (recognizer : pyval) (acc : list EntityRecognizer) :
  predefined_body lib self recognizer acc
  = (l <- predefined_instances lib self recognizer ;; Ok (acc ++ l)).
Proof.
  unfold predefined_instances. rewrite !predefined_body_scopes.
  destruct (_get_recognizer_languages self recognizer); simpl;
    [|reflexivity].
  destruct (comprehension _ _); reflexivity.
Qed.

Lemma custom_body_appends (self : RecognizerRegistryProvider)
      (recognizer : pyval) (acc : list EntityRecognizer) :
  custom_body from_dict self recognizer acc
  = (l <- custom_instances from_dict self recognizer ;; Ok (acc ++ l)).
Proof.
  unfold custom_instances, custom_body.
  destruct (_is_recognizer_enabled recognizer) as [v|e]; simpl;
    [|reflexivity].
  destruct (truthy v); simpl; [|now rewrite app_nil_r].
  destruct (_create_custom_recognizers _ _ _); reflexivity.
Qed.

(** The registry a successful run returns, entry by entry: every entry
    is classified twice, adds its predefined instances to the first
    part of the list and its custom instances to the second. *)
Lemma create_Ok (self : RecognizerRegistryProvider)
      (reg : RecognizerRegistry) :
  create_recognizer_registry lib from_dict self = Ok reg
  <-> exists entries pss css,
      py_iter (resolved_recognizers (configuration self)) = Ok entries
      /\ Forall2 (fun e l =>
                    selected is_predefined
                      (predefined_instances lib (resolved_self self)) e
                    = Ok l) entries pss
      /\ Forall2 (fun e l =>
                    selected is_custom
                      (custom_instances from_dict (resolved_self self)) e
                    = Ok l) entries css
      /\ reg = {| registry_supported_languages :=
                    resolved_languages (configuration self);
                  registry_recognizers :=
                    map (with_flags (resolved_flags (configuration self)))
                        (List.concat pss ++ List.concat css);
                  registry_global_regex_flags :=
                    resolved_flags (configuration self) |}.
Proof.
  rewrite create_unfold. cbv zeta. fold (resolved_self self).
  unfold _split_recognizers.
  set (pre := predefined_instances lib (resolved_self self)).
  set (cus := custom_instances from_dict (resolved_self self)).
  split.
  - intros H.
    apply bind_Ok in H as ([predefined custom] & Hsplit & H).
    apply bind_Ok in Hsplit as (entries & Hiter & Hsplit).
    apply bind_Ok in Hsplit as (predefined' & Hpre & Hsplit).
    rewrite Hiter in Hsplit. simpl in Hsplit.
    apply bind_Ok in Hsplit as (custom' & Hcus & Hsplit).
    injection Hsplit as <- <-.
    simpl in H.
    rewrite (for_each_appends pre) in H
      by (intros; apply predefined_body_appends).
    apply bind_Ok in H as (a & Ha & H).
    apply bind_Ok in Ha as (pls & Hpls & Ha). injection Ha as <-.
    rewrite (for_each_appends cus) in H
      by (intros; apply custom_body_appends).
    apply bind_Ok in H as (b & Hb & H).
    apply bind_Ok in Hb as (cls & Hcls & Hb). injection Hb as <-.
    injection H as <-.
    destruct (proj1 (selected_loop_Ok is_predefined pre entries
                                      (List.concat pls)))
      as (pss & HP & HPc); [now exists predefined', pls|].
    destruct (proj1 (selected_loop_Ok is_custom cus entries
                                      (List.concat cls)))
      as (css & HC & HCc); [now exists custom', cls|].
    exists entries, pss, css. repeat split; try assumption.
    simpl. now rewrite HPc, HCc.
  - intros (entries & pss & css & Hiter & HP & HC & ->).
    destruct (proj2 (selected_loop_Ok is_predefined pre entries
                                      (List.concat pss)))
      as (predefined & pls & Hpre & Hpls & HPc); [now exists pss|].
    destruct (proj2 (selected_loop_Ok is_custom cus entries
                                      (List.concat css)))
      as (custom & cls & Hcus & Hcls & HCc); [now exists css|].
    rewrite Hiter. simpl. rewrite Hpre. simpl. rewrite Hcus. simpl.
    rewrite (for_each_appends pre)
      by (intros; apply predefined_body_appends).
    rewrite Hpls. simpl.
    rewrite (for_each_appends cus)
      by (intros; apply custom_body_appends).
    rewrite Hcls. simpl. now rewrite HPc, HCc.
Qed.

Lemma resolved_recognizers_with (self : RecognizerRegistryProvider)
      (entries : list pyval) :
  resolved_recognizers (configuration (with_recognizers self entries))
  = PList entries.
Proof.
  unfold resolved_recognizers, dict_get_default, with_recognizers. simpl.
  now rewrite dict_get_set_same.
Qed.

Lemma resolved_languages_with (self : RecognizerRegistryProvider)
      (entries : list pyval) :
  resolved_languages (configuration (with_recognizers self entries))
  = resolved_languages (configuration self).
Proof.
  unfold resolved_languages, dict_get_default, with_recognizers. simpl.
  now rewrite dict_get_set_other by discriminate.
Qed.

Lemma resolved_flags_with (self : RecognizerRegistryProvider)
      (entries : list pyval) :
  resolved_flags (configuration (with_recognizers self entries))
  = resolved_flags (configuration self).
Proof.
  unfold resolved_flags, dict_get_default, with_recognizers. simpl.
  now rewrite dict_get_set_other by discriminate.
Qed.

Lemma assembled_with (self : RecognizerRegistryProvider)
      (entries : list pyval) (instances : list EntityRecognizer) :
  assembled (with_recognizers self entries) instances
  = assembled self instances.
Proof.
  unfold assembled.
  now rewrite resolved_languages_with, resolved_flags_with.
Qed.

Lemma create_with_Ok (self : RecognizerRegistryProvider)
      (entries : list pyval) (reg : RecognizerRegistry) :
  create_recognizer_registry lib from_dict (with_recognizers self entries)
  = Ok reg
  <-> exists pss css,
      Forall2 (adds_predefined lib self) entries pss
      /\ Forall2 (adds_custom from_dict self) entries css
      /\ reg = assembled self (List.concat pss ++ List.concat css).
Proof.
  rewrite create_Ok. rewrite resolved_recognizers_with.
  fold (assembled (with_recognizers self entries)).
  assert (Hp : forall e,
             predefined_instances lib
               (resolved_self (with_recognizers self entries)) e
             = predefined_instances lib (resolved_self self) e).
  { intros e. apply predefined_body_languages_only. simpl.
    apply resolved_languages_with. }
  assert (Hc : forall e,
             custom_instances from_dict
               (resolved_self (with_recognizers self entries)) e
             = custom_instances from_dict (resolved_self self) e).
  { intros e. apply custom_body_languages_only. simpl.
    apply resolved_languages_with. }
  split.
  - intros (entries' & pss & css & Hiter & HP & HC & ->).
    injection Hiter as <-. exists pss, css. repeat split.
    + eapply Forall2_impl; [|exact HP]. intros e l H.
      unfold adds_predefined, selected in *. simpl in *.
      destruct (is_predefined e) as [[]|]; simpl in *;
        try assumption. now rewrite <- Hp.
    + eapply Forall2_impl; [|exact HC]. intros e l H.
      unfold adds_custom, selected in *. simpl in *.
      destruct (is_custom e) as [[]|]; simpl in *;
        try assumption. now rewrite <- Hc.
    + apply assembled_with.
  - intros (pss & css & HP & HC & ->).
    exists entries, pss, css. repeat split.
    + eapply Forall2_impl; [|exact HP]. intros e l H.
      unfold adds_predefined, selected in *. simpl in *.
      destruct (is_predefined e) as [[]|]; simpl in *;
        try assumption. now rewrite Hp.
    + eapply Forall2_impl; [|exact HC]. intros e l H.
      unfold adds_custom, selected in *. simpl in *.
      destruct (is_custom e) as [[]|]; simpl in *;
        try assumption. now rewrite Hc.
    + symmetry. apply assembled_with.
Qed.

(** A registry assembled from a configuration that declares an entry is
    the registry assembled without the entry, with what the entry adds
    put in its place in each of the two parts. *)
Lemma create_entry_adds (self : RecognizerRegistryProvider)
      (l1 l2 : list pyval) (e : pyval) (reg : RecognizerRegistry) :
  create_recognizer_registry lib from_dict
                             (with_recognizers self (l1 ++ e :: l2))
  = Ok reg ->
  exists P1 P2 C1 C2 pe ce,
    adds_predefined lib self e pe /\ adds_custom from_dict self e ce
    /\ create_recognizer_registry lib from_dict
                                  (with_recognizers self (l1 ++ l2))
       = Ok (assembled self ((P1 ++ P2) ++ (C1 ++ C2)))
    /\ reg = assembled self ((P1 ++ pe ++ P2) ++ (C1 ++ ce ++ C2)).
Proof.
  intros H. apply create_with_Ok in H as (pss & css & HP & HC & ->).
  apply Forall2_app_inv_l in HP as (pss1 & pss2' & HP1 & HP2 & ->).
  apply Forall2_app_inv_l in HC as (css1 & css2' & HC1 & HC2 & ->).
  inversion HP2 as [|? pe ? pss2 Hpe HP2']; subst.
  inversion HC2 as [|? ce ? css2 Hce HC2']; subst.
  exists (List.concat pss1), (List.concat pss2),
         (List.concat css1), (List.concat css2), pe, ce.
  repeat split; try assumption.
  - apply create_with_Ok. exists (pss1 ++ pss2), (css1 ++ css2).
    repeat split.
    + now apply Forall2_app.
    + now apply Forall2_app.
    + now rewrite !concat_app.
  - now rewrite !concat_app.
Qed.

(** Conversely, an entry that is processed without error can be added to
    a configuration that assembles. *)
Lemma create_entry_added (self : RecognizerRegistryProvider)
      (l1 l2 : list pyval) (e : pyval) (reg' : RecognizerRegistry)
      (pe ce : list EntityRecognizer) :
  adds_predefined lib self e pe -> adds_custom from_dict self e ce ->
  create_recognizer_registry lib from_dict
                             (with_recognizers self (l1 ++ l2))
  = Ok reg' ->
  exists P1 P2 C1 C2,
    reg' = assembled self ((P1 ++ P2) ++ (C1 ++ C2))
    /\ create_recognizer_registry lib from_dict
                                  (with_recognizers self (l1 ++ e :: l2))
       = Ok (assembled self ((P1 ++ pe ++ P2) ++ (C1 ++ ce ++ C2))).
Proof.
  intros Hpe Hce H.
  apply create_with_Ok in H as (pss & css & HP & HC & ->).
  apply Forall2_app_inv_l in HP as (pss1 & pss2 & HP1 & HP2 & ->).
  apply Forall2_app_inv_l in HC as (css1 & css2 & HC1 & HC2 & ->).
  exists (List.concat pss1), (List.concat pss2),
         (List.concat css1), (List.concat css2).
  split.
  - now rewrite !concat_app.
  - apply create_with_Ok.
    exists (pss1 ++ pe :: pss2), (css1 ++ ce :: css2). repeat split.
    + apply Forall2_app; [assumption|]. now constructor.
    + apply Forall2_app; [assumption|]. now constructor.
    + now rewrite !concat_app.
Qed.

(** ** Classification of one entry *)

Lemma is_predefined_dict (d : dict) :
  is_predefined (PDict d)
  = Ok (match dict_get "type" d with
        | Some t => eq_str t "predefined"
        | None => false
        end).
Proof.
  unfold is_predefined, dict_mem. simpl. unfold dict_mem.
  destruct (dict_get "type" d); reflexivity.
Qed.

Lemma is_custom_dict (d : dict) :
  is_custom (PDict d)
  = Ok (match dict_get "type" d with
        | Some t => eq_str t "custom"
        | None => true
        end).
Proof.
  unfold is_custom, dict_mem. simpl. unfold dict_mem.
  destruct (dict_get "type" d); reflexivity.
Qed.

Lemma eq_str_true (v : pyval) (s : string) :
  eq_str v s = true -> v = PStr s.
Proof.
  destruct v; simpl; try discriminate.
  intros H. apply String.eqb_eq in H. now subst.
Qed.

(** The two lists of [_split_recognizers] are disjoint. *)
Lemma custom_not_predefined (d : dict) :
  is_custom (PDict d) = Ok true -> is_predefined (PDict d) = Ok false.
Proof.
  rewrite is_custom_dict, is_predefined_dict.
  destruct (dict_get "type" d) as [t|]; [|reflexivity].
  intros H. injection H as H. apply eq_str_true in H. now subst.
Qed.

Lemma predefined_not_custom (e : pyval) :
  is_predefined e = Ok true -> is_custom e = Ok false.
Proof.
  destruct e as [| | | | s | l | d]; try discriminate.
  - reflexivity.
  - unfold is_predefined. simpl.
    destruct (existsb _ l); discriminate.
  - rewrite is_custom_dict, is_predefined_dict.
    destruct (dict_get "type" d) as [t|]; [|discriminate].
    intros H. injection H as H. apply eq_str_true in H. now subst.
Qed.

(** An entry of a known type is kept by [_split_recognizers], in one of
    its two lists. *)
Lemma known_type_classified (e : pyval) :
  known_type e -> is_predefined e = Ok true \/ is_custom e = Ok true.
Proof.
  destruct e as [| | | | s | l | d]; try contradiction; simpl.
  - now left.
  - rewrite is_predefined_dict, is_custom_dict.
    destruct (dict_get "type" d) as [t|]; [|now right].
    intros [-> | ->]; [now left | now right].
Qed.

(** ** Disabled entries *)

Lemma disabled_check (d : dict) :
  dict_get "enabled" d = Some (PBool false) ->
  _is_recognizer_enabled (PDict d) = Ok (PBool false).
Proof.
  intros H. unfold _is_recognizer_enabled. simpl. unfold dict_mem.
  now rewrite H.
Qed.

Lemma concat_all_nil {A B : Type} (xs : list A) (ls : list (list B)) :
  Forall2 (fun _ l => l = []) xs ls -> List.concat ls = [].
Proof.
  induction 1; simpl; [reflexivity|]. now subst.
Qed.

Lemma disabled_adds_no_predefined (self : RecognizerRegistryProvider)
      (d : dict) (pe : list EntityRecognizer) :
  dict_get "enabled" d = Some (PBool false) ->
  adds_predefined lib self (PDict d) pe -> pe = [].
Proof.
  intros Hd H. unfold adds_predefined, selected in H.
  apply bind_Ok in H as ([] & _ & H); [|now injection H].
  unfold predefined_instances in H. rewrite predefined_body_scopes in H.
  apply bind_Ok in H as (languages & _ & H).
  apply bind_Ok in H as (ls & Hls & H). injection H as <-. simpl.
  apply comprehension_Ok in Hls.
  apply (concat_all_nil languages).
  eapply Forall2_impl; [|exact Hls]. intros sc l Hl.
  unfold predefined_scope_instances in Hl.
  rewrite (disabled_check d Hd) in Hl. simpl in Hl. now injection Hl.
Qed.

Lemma disabled_adds_no_custom (self : RecognizerRegistryProvider)
      (d : dict) (ce : list EntityRecognizer) :
  dict_get "enabled" d = Some (PBool false) ->
  adds_custom from_dict self (PDict d) ce -> ce = [].
Proof.
  intros Hd H. unfold adds_custom, selected in H.
  apply bind_Ok in H as ([] & _ & H); [|now injection H].
  unfold custom_instances, custom_body in H.
  rewrite (disabled_check d Hd) in H. simpl in H. now injection H.
Qed.

(** C5.  A structured entry with [enabled: false] adds no instance,
    whether it is classified predefined or custom: every registry
    assembled from a configuration that declares such an entry is the
    registry assembled from the configuration without it. *)
Theorem disabled_entry_adds_no_instance
        (self : RecognizerRegistryProvider) (l1 l2 : list pyval)
        (d : dict) (reg : RecognizerRegistry) :
  dict_get "enabled" d = Some (PBool false) ->
  create_recognizer_registry lib from_dict
                             (with_recognizers self (l1 ++ PDict d :: l2))
  = Ok reg ->
  create_recognizer_registry lib from_dict
                             (with_recognizers self (l1 ++ l2))
  = Ok reg.
Proof.
  intros Hd H.
  apply create_entry_adds in H
    as (P1 & P2 & C1 & C2 & pe & ce & Hpe & Hce & Hrest & ->).
  apply (disabled_adds_no_predefined self d pe Hd) in Hpe.
  apply (disabled_adds_no_custom self d ce Hd) in Hce.
  subst. exact Hrest.
Qed.

(** ** Legacy custom entries *)

Lemma legacy_custom_adds (self : RecognizerRegistryProvider) (d : dict)
      (ce : list EntityRecognizer) :
  is_custom (PDict d) = Ok true ->
  enabled_entry (PDict d) ->
  dict_mem "supported_language" d = true ->
  adds_custom from_dict self (PDict d) ce ->
  exists r, from_dict (PDict d) = Ok r /\ ce = [r].
Proof.
  intros Hc (v & Hv & Ht) Hl H. unfold adds_custom, selected in H.
  rewrite Hc in H. simpl in H.
  unfold custom_instances, custom_body in H. rewrite Hv in H. simpl in H.
  rewrite Ht in H. unfold _create_custom_recognizers in H. simpl in H.
  rewrite Hl in H. simpl in H.
  destruct (from_dict (PDict d)) as [r|]; [|discriminate].
  simpl in H. injection H as <-. now exists r.
Qed.

Lemma custom_adds_no_predefined (self : RecognizerRegistryProvider)
      (d : dict) (pe : list EntityRecognizer) :
  is_custom (PDict d) = Ok true ->
  adds_predefined lib self (PDict d) pe -> pe = [].
Proof.
  intros Hc H. unfold adds_predefined, selected in H.
  rewrite (custom_not_predefined d Hc) in H. now injection H.
Qed.

Lemma predefined_adds_no_custom (self : RecognizerRegistryProvider)
      (e : pyval) (ce : list EntityRecognizer) :
  is_predefined e = Ok true ->
  adds_custom from_dict self e ce -> ce = [].
Proof.
  intros Hp H. unfold adds_custom, selected in H.
  rewrite (predefined_not_custom e Hp) in H. now injection H.
Qed.

(** C2 (amended).  An enabled custom entry that carries the legacy singular
    [supported_language] adds exactly one instance, whatever the
    registry-wide languages are: the one [PatternRecognizer.from_dict]
    builds from the entry itself, given the global flags.  (A predefined
    entry with that field is expanded like any other predefined
    entry.) *)
Theorem legacy_custom_entry_adds_one_instance
        (self : RecognizerRegistryProvider) (l1 l2 : list pyval)
        (d : dict) (reg : RecognizerRegistry) :
  is_custom (PDict d) = Ok true ->
  enabled_entry (PDict d) ->
  dict_mem "supported_language" d = true ->
  create_recognizer_registry lib from_dict
                             (with_recognizers self (l1 ++ PDict d :: l2))
  = Ok reg ->
  exists reg' before r after,
    create_recognizer_registry lib from_dict
                               (with_recognizers self (l1 ++ l2))
    = Ok reg'
    /\ from_dict (PDict d) = Ok r
    /\ registry_recognizers reg' = before ++ after
    /\ registry_recognizers reg
       = before ++ [with_flags (resolved_flags (configuration self)) r]
                ++ after.
Proof.
  intros Hc He Hl H.
  apply create_entry_adds in H
    as (P1 & P2 & C1 & C2 & pe & ce & Hpe & Hce & Hrest & ->).
  apply (custom_adds_no_predefined self d pe Hc) in Hpe. subst pe.
  apply (legacy_custom_adds self d ce Hc He Hl) in Hce as (r & Hr & ->).
  set (flag := with_flags (resolved_flags (configuration self))).
  exists (assembled self ((P1 ++ P2) ++ C1 ++ C2)),
         (map flag ((P1 ++ P2) ++ C1)), r, (map flag C2).
  repeat split; try assumption.
  - unfold assembled. cbn [registry_recognizers]. fold flag.
    rewrite <- map_app. f_equal. now rewrite app_assoc.
  - unfold assembled. cbn [registry_recognizers]. fold flag.
    change [flag r] with (map flag [r]).
    rewrite <- !map_app. f_equal. cbn [app]. now rewrite !app_assoc.
Qed.

(** Conversely, when [PatternRecognizer.from_dict] accepts the entry and
    the rest of the configuration assembles, so does the configuration
    with the entry, with one instance more. *)
Lemma legacy_custom_entry_is_added
      (self : RecognizerRegistryProvider) (l1 l2 : list pyval)
      (d : dict) (r : EntityRecognizer) (reg' : RecognizerRegistry) :
  is_custom (PDict d) = Ok true ->
  enabled_entry (PDict d) ->
  dict_mem "supported_language" d = true ->
  from_dict (PDict d) = Ok r ->
  create_recognizer_registry lib from_dict
                             (with_recognizers self (l1 ++ l2))
  = Ok reg' ->
  exists reg,
    create_recognizer_registry lib from_dict
                               (with_recognizers self (l1 ++ PDict d :: l2))
    = Ok reg
    /\ List.length (registry_recognizers reg)
       = S (List.length (registry_recognizers reg')).
Proof.
  intros Hc (v & Hv & Ht) Hl Hr H.
  assert (Hpe : adds_predefined lib self (PDict d) []).
  { unfold adds_predefined, selected.
    now rewrite (custom_not_predefined d Hc). }
  assert (Hce : adds_custom from_dict self (PDict d) [r]).
  { unfold adds_custom, selected. rewrite Hc. simpl.
    unfold custom_instances, custom_body. rewrite Hv. simpl. rewrite Ht.
    unfold _create_custom_recognizers. simpl. rewrite Hl. simpl.
    now rewrite Hr. }
  destruct (create_entry_added self l1 l2 (PDict d) reg' [] [r] Hpe Hce H)
    as (P1 & P2 & C1 & C2 & -> & Hfull).
  eexists. split; [exact Hfull|].
  unfold assembled. cbn [registry_recognizers].
  rewrite !length_map, !length_app. simpl. lia.
Qed.

(** ** Entries without a language field *)

Lemma Forall2_map_left {A B C : Type} (R : B -> C -> Prop) (f : A -> B)
      (xs : list A) (ys : list C) :
  Forall2 R (map f xs) ys -> Forall2 (fun x y => R (f x) y) xs ys.
Proof.
  revert ys. induction xs as [|x xs IH]; intros ys H; simpl in H;
    inversion H; subst; constructor; auto.
Qed.

Lemma Forall2_map_right {A B C : Type} (R : A -> C -> Prop) (f : B -> C)
      (xs : list A) (ys : list B) :
  Forall2 (fun x y => R x (f y)) xs ys -> Forall2 R xs (map f ys).
Proof.
  induction 1; simpl; constructor; auto.
Qed.

Lemma Forall2_singletons {A B : Type} (R : A -> B -> Prop)
      (xs : list A) (ls : list (list B)) :
  Forall2 (fun x l => exists y, l = [y] /\ R x y) xs ls ->
  Forall2 R xs (List.concat ls).
Proof.
  induction 1 as [|x l xs ls (y & -> & Hy) _ IH]; simpl;
    constructor; assumption.
Qed.

Lemma Forall2_length_eq {A B : Type} (R : A -> B -> Prop)
      (xs : list A) (ys : list B) :
  Forall2 R xs ys -> List.length ys = List.length xs.
Proof.
  induction 1; simpl; congruence.
Qed.

(** Rule 1 of the expansion: one scope per registry-wide language, all
    with the context of the entry. *)
Lemma registry_wide_scopes (self : RecognizerRegistryProvider)
      (e : pyval) (langs : list pyval) :
  no_language_field e ->
  supported_languages self = PList langs ->
  exists context,
    _get_recognizer_languages self e
    = Ok (map (fun language => language_scope language context) langs).
Proof.
  intros Hno Hl. unfold _get_recognizer_languages. rewrite Hl.
  destruct e as [| | | | s | l | d]; try contradiction.
  - exists PNone. simpl. now apply comprehension_pure.
  - destruct Hno as [_ Hno]. simpl. rewrite Hno. simpl.
    exists (dict_get_default "context" PNone d).
    now apply comprehension_pure.
Qed.

Lemma scope_language (copied : dict) (language context : pyval) :
  dict_get "supported_language"
           (dict_merge copied (language_scope language context))
  = Some language.
Proof.
  unfold dict_merge, language_scope. simpl.
  rewrite dict_get_set_other by discriminate.
  apply dict_get_set_same.
Qed.

Lemma fan_out_predefined (self : RecognizerRegistryProvider)
      (e : pyval) (langs : list pyval) (pe : list EntityRecognizer) :
  no_language_field e ->
  resolved_languages (configuration self) = PList langs ->
  is_predefined e = Ok true ->
  enabled_entry e ->
  adds_predefined lib self e pe ->
  Forall2 (fun language r0 =>
             exists kwargs,
               dict_get "supported_language" kwargs = Some language
               /\ exists name, _get_recognizer_name e = Ok name
                               /\ call_predefined lib name kwargs = Ok r0)
          langs pe.
Proof.
  intros Hno Hl Hp (v & Hv & Ht) H. unfold adds_predefined, selected in H.
  rewrite Hp in H. simpl in H. unfold predefined_instances in H.
  rewrite predefined_body_scopes in H.
  destruct (registry_wide_scopes (resolved_self self) e langs Hno Hl)
    as (context & Hscopes).
  rewrite Hscopes in H. simpl in H.
  apply bind_Ok in H as (ls & Hls & H). injection H as <-. simpl.
  apply comprehension_Ok, Forall2_map_left in Hls.
  apply Forall2_singletons.
  eapply Forall2_impl; [|exact Hls]. intros language l Hbuilt.
  unfold predefined_scope_instances in Hbuilt.
  rewrite Hv in Hbuilt. simpl in Hbuilt. rewrite Ht in Hbuilt.
  apply bind_Ok in Hbuilt as (items & _ & Hbuilt).
  apply bind_Ok in Hbuilt as (name & Hname & Hbuilt).
  apply bind_Ok in Hbuilt as (r0 & Hr0 & Hbuilt). injection Hbuilt as <-.
  exists r0. split; [reflexivity|].
  eexists. split; [|exists name; split; [exact Hname | exact Hr0]].
  apply scope_language.
Qed.

Lemma fan_out_custom (self : RecognizerRegistryProvider)
      (e : pyval) (langs : list pyval) (ce : list EntityRecognizer) :
  no_language_field e ->
  resolved_languages (configuration self) = PList langs ->
  is_custom e = Ok true ->
  enabled_entry e ->
  adds_custom from_dict self e ce ->
  Forall2 (fun language r0 =>
             exists kwargs,
               dict_get "supported_language" kwargs = Some language
               /\ from_dict (PDict kwargs) = Ok r0)
          langs ce.
Proof.
  intros Hno Hl Hc (v & Hv & Ht) H. unfold adds_custom, selected in H.
  rewrite Hc in H. simpl in H. unfold custom_instances, custom_body in H.
  rewrite Hv in H. simpl in H. rewrite Ht in H.
  apply bind_Ok in H as (created & H & Hce). injection Hce as <-. simpl.
  unfold _create_custom_recognizers in H.
  destruct (registry_wide_scopes (resolved_self self) e langs Hno Hl)
    as (context & Hscopes).
  rewrite Hscopes in H.
  destruct e as [| | | | s | l | d]; try contradiction.
  { discriminate Hc. }
  destruct Hno as [Hno _]. simpl in H. rewrite Hno in H. simpl in H.
  rewrite (for_each_appends
             (fun supported_language =>
                r <- from_dict
                       (PDict (dict_merge
                                 (dict_without
                                    ["enabled"; "type"; "supported_languages"]
                                    d)
                                 supported_language)) ;;
                Ok [r])) in H.
  2:{ intros sc acc. simpl.
      destruct (from_dict _); reflexivity. }
  apply bind_Ok in H as (ls & Hls & H). injection H as <-. simpl.
  apply comprehension_Ok, Forall2_map_left in Hls.
  apply Forall2_singletons.
  eapply Forall2_impl; [|exact Hls]. intros language l Hbuilt.
  apply bind_Ok in Hbuilt as (r0 & Hr0 & Hbuilt). injection Hbuilt as <-.
  exists r0. split; [reflexivity|].
  eexists. split; [|exact Hr0]. apply scope_language.
Qed.

(** C4 (amended).  An enabled entry with no language field that is a bare
    name, or a mapping with neither [supported_language] nor
    [supported_languages] whose [type] is absent, ["custom"] or
    ["predefined"], adds one instance per registry-wide language, in the
    order of the languages: each is built with [supported_language] bound
    to its language, and there are as many as there are registry-wide
    languages.  (A mapping of any other [type] is in neither list of
    [_split_recognizers] and adds no instance.) *)
Theorem entry_without_language_adds_one_instance_per_language
        (self : RecognizerRegistryProvider) (l1 l2 : list pyval)
        (e : pyval) (langs : list pyval) (reg : RecognizerRegistry) :
  resolved_languages (configuration self) = PList langs ->
  no_language_field e ->
  known_type e ->
  enabled_entry e ->
  create_recognizer_registry lib from_dict
                             (with_recognizers self (l1 ++ e :: l2))
  = Ok reg ->
  exists reg' before built after,
    create_recognizer_registry lib from_dict
                               (with_recognizers self (l1 ++ l2))
    = Ok reg'
    /\ registry_recognizers reg' = before ++ after
    /\ registry_recognizers reg = before ++ built ++ after
    /\ Forall2 (built_for lib from_dict
                          (resolved_flags (configuration self)) e)
               langs built
    /\ List.length built = List.length langs.
Proof.
  intros Hl Hno Hclass He H. apply known_type_classified in Hclass.
  apply create_entry_adds in H
    as (P1 & P2 & C1 & C2 & pe & ce & Hpe & Hce & Hrest & ->).
  set (flag := with_flags (resolved_flags (configuration self))).
  destruct Hclass as [Hp | Hc].
  - apply (predefined_adds_no_custom self e ce Hp) in Hce. subst ce.
    pose proof (fan_out_predefined self e langs pe Hno Hl Hp He Hpe) as HF.
    assert (HB : Forall2 (built_for lib from_dict
                            (resolved_flags (configuration self)) e)
                         langs (map flag pe)).
    { apply Forall2_map_right. eapply Forall2_impl; [|exact HF].
      intros language r0 (kwargs & Hk & name & Hn & Hr).
      exists kwargs, r0. repeat split; [assumption|].
      left. now exists name. }
    exists (assembled self ((P1 ++ P2) ++ C1 ++ C2)),
           (map flag P1), (map flag pe), (map flag (P2 ++ C1 ++ C2)).
    repeat split; try assumption.
    + unfold assembled. cbn [registry_recognizers]. fold flag.
      rewrite <- map_app. f_equal. now rewrite !app_assoc.
    + unfold assembled. cbn [registry_recognizers]. fold flag.
      rewrite <- !map_app. f_equal. cbn [app]. now rewrite !app_assoc.
    + apply (Forall2_length_eq _ _ _ HB).
  - destruct e as [| | | | s | l | d]; try contradiction.
    { discriminate Hc. }
    apply (custom_adds_no_predefined self d pe Hc) in Hpe. subst pe.
    pose proof (fan_out_custom self (PDict d) langs ce Hno Hl Hc He Hce)
      as HF.
    assert (HB : Forall2 (built_for lib from_dict
                            (resolved_flags (configuration self))
                            (PDict d))
                         langs (map flag ce)).
    { apply Forall2_map_right. eapply Forall2_impl; [|exact HF].
      intros language r0 (kwargs & Hk & Hr).
      exists kwargs, r0. repeat split; [assumption|]. now right. }
    exists (assembled self ((P1 ++ P2) ++ C1 ++ C2)),
           (map flag ((P1 ++ P2) ++ C1)), (map flag ce), (map flag C2).
    repeat split; try assumption.
    + unfold assembled. cbn [registry_recognizers]. fold flag.
      rewrite <- map_app. f_equal. now rewrite !app_assoc.
    + unfold assembled. cbn [registry_recognizers]. fold flag.
      rewrite <- !map_app. f_equal. cbn [app]. now rewrite !app_assoc.
    + apply (Forall2_length_eq _ _ _ HB).
Qed.

(** ** The global flags *)

Lemma with_flags_pattern (flags : pyval) (r : EntityRecognizer) :
  is_PatternRecognizer (with_flags flags r) = is_PatternRecognizer r.
Proof.
  unfold with_flags. destruct (is_PatternRecognizer r) eqn:E; simpl; auto.
Qed.

Lemma with_flags_getattr (flags : pyval) (r : EntityRecognizer) :
  is_PatternRecognizer r = true ->
  get_attribute (with_flags flags r) "global_regex_flags" = Some flags.
Proof.
  intros H. unfold with_flags, get_attribute. rewrite H. simpl.
  apply dict_get_set_same.
Qed.

(** C8.  In the registry [create_recognizer_registry] returns, every
    instance of [PatternRecognizer] has its [global_regex_flags] equal to
    the resolved flags, which are also the registry's own: the value of
    the configuration when the key is present, and
    [re.DOTALL | re.MULTILINE | re.IGNORECASE] otherwise; whatever the
    constructor had set is overwritten. *)
Theorem pattern_instances_carry_the_global_flags
        (self : RecognizerRegistryProvider) (reg : RecognizerRegistry)
        (flags : pyval) :
  create_recognizer_registry lib from_dict self = Ok reg ->
  flags = match dict_get "global_regex_flags" (configuration self) with
          | Some v => v
          | None => PInt (Z.lor (Z.lor re_IGNORECASE re_MULTILINE) re_DOTALL)
          end ->
  registry_global_regex_flags reg = flags
  /\ Forall (fun r => is_PatternRecognizer r = true ->
                      get_attribute r "global_regex_flags" = Some flags)
            (registry_recognizers reg).
Proof.
  intros H ->. change (match dict_get "global_regex_flags" _ with
                       | Some v => v | None => _ end)
    with (resolved_flags (configuration self)).
  apply create_Ok in H as (entries & pss & css & _ & _ & _ & ->).
  split; [reflexivity|]. cbn [registry_recognizers].
  apply Forall_forall. intros r Hin Hpat.
  apply in_map_iff in Hin as (r0 & <- & _).
  rewrite with_flags_pattern in Hpat.
  now apply with_flags_getattr.
Qed.

(** ** The expansion of [supported_languages] *)

Lemma mappings_scopes (mappings : list dict) :
  Forall (fun m => dict_mem "language" m = true
                   /\ dict_mem "context" m = true) mappings ->
  comprehension
    (fun language =>
       l <- py_getitem language "language" ;;
       c <- py_getitem language "context" ;;
       Ok (language_scope l c))
    (map PDict mappings)
  = Ok (map (fun m => language_scope (dict_get_default "language" PNone m)
                                     (dict_get_default "context" PNone m))
            mappings).
Proof.
  induction 1 as [|m ms [Hl Hc] _ IH]; simpl; [reflexivity|].
  rewrite IH. unfold dict_mem, dict_get_default in *.
  destruct (dict_get "language" m); [|discriminate].
  destruct (dict_get "context" m); [|discriminate].
  reflexivity.
Qed.


(** ** Failures *)

Lemma comprehension_if_app {A : Type} (p : A -> result bool)
      (xs ys : list A) :
  comprehension_if p (xs ++ ys)
  = (a <- comprehension_if p xs ;;
     b <- comprehension_if p ys ;;
     Ok (a ++ b)).
Proof.
  induction xs as [|x xs IH]; simpl.
  - destruct (comprehension_if p ys); reflexivity.
  - destruct (p x) as [b|]; simpl; [|reflexivity]. rewrite IH.
    destruct (comprehension_if p xs); simpl; [|reflexivity].
    destruct (comprehension_if p ys); simpl; [|reflexivity].
    destruct b; reflexivity.
Qed.

Lemma for_each_ext {A S : Type} (body1 body2 : A -> S -> result S)
      (xs : list A) (s : S) :
  (forall x s', body1 x s' = body2 x s') ->
  for_each xs body1 s = for_each xs body2 s.
Proof.
  intros H. revert s. induction xs as [|x xs IH]; intros s; simpl;
    [reflexivity|].
  rewrite H. destruct (body2 x s); simpl; auto.
Qed.

(** Classifying an entry raises nothing but a type error. *)
Lemma is_predefined_raises (x : pyval) (err : exn) :
  is_predefined x = Raise err -> err = TypeError.
Proof.
  destruct x as [| | | | s | l | d]; unfold is_predefined; simpl;
    try (intros H; injection H as <-; reflexivity); try discriminate.
  - destruct (existsb _ l); simpl; [|discriminate].
    intros H; injection H as <-; reflexivity.
  - unfold dict_mem. destruct (dict_get "type" d); discriminate.
Qed.

Lemma is_custom_raises (x : pyval) (err : exn) :
  is_custom x = Raise err -> err = TypeError.
Proof.
  destruct x as [| | | | s | l | d]; unfold is_custom; simpl;
    try (intros H; injection H as <-; reflexivity); try discriminate.
  - destruct (existsb _ l); simpl; [|discriminate].
    intros H; injection H as <-; reflexivity.
  - unfold dict_mem. destruct (dict_get "type" d); discriminate.
Qed.

Lemma comprehension_if_raises {A : Type} (p : A -> result bool)
      (xs : list A) (err : exn) :
  (forall x e, p x = Raise e -> e = TypeError) ->
  comprehension_if p xs = Raise err -> err = TypeError.
Proof.
  intros Hp. induction xs as [|x xs IH]; simpl; [discriminate|].
  destruct (p x) as [b|e] eqn:E; simpl.
  - destruct (comprehension_if p xs); simpl; [discriminate|].
    intros H. injection H as <-. now apply IH.
  - intros H. injection H as <-. now apply (Hp x).
Qed.

(** When the entries before a predefined entry assemble without error
    and the body of the loop raises a type error on that entry, so does
    [create_recognizer_registry]. *)
Lemma create_raises_at (self : RecognizerRegistryProvider)
      (l1 l2 : list pyval) (e : pyval) (reg1 : RecognizerRegistry) :
  create_recognizer_registry lib from_dict (with_recognizers self l1)
  = Ok reg1 ->
  is_predefined e = Ok true ->
  predefined_instances lib (resolved_self self) e = Raise TypeError ->
  create_recognizer_registry lib from_dict
                             (with_recognizers self (l1 ++ e :: l2))
  = Raise TypeError.
Proof.
  intros H1 Hp He.
  rewrite create_unfold in H1. cbv zeta in H1.
  rewrite resolved_recognizers_with in H1.
  unfold _split_recognizers in H1. simpl in H1.
  apply bind_Ok in H1 as (split1 & Hsplit1 & H1).
  apply bind_Ok in Hsplit1 as (pre1 & Hpre1 & Hsplit1).
  apply bind_Ok in Hsplit1 as (cus1 & Hcus1 & Hsplit1).
  injection Hsplit1 as <-. simpl in H1.
  apply bind_Ok in H1 as (a1 & Ha1 & _).
  rewrite create_unfold. cbv zeta.
  rewrite resolved_recognizers_with.
  unfold _split_recognizers. simpl.
  rewrite !comprehension_if_app, Hpre1, Hcus1. simpl.
  rewrite Hp. simpl.
  destruct (comprehension_if is_predefined l2) as [pre2|err] eqn:Epre2;
    simpl.
  2:{ apply comprehension_if_raises in Epre2;
        [now subst | apply is_predefined_raises]. }
  rewrite (predefined_not_custom e Hp). simpl.
  destruct (comprehension_if is_custom l2) as [cus2|err] eqn:Ecus2; simpl.
  2:{ apply comprehension_if_raises in Ecus2;
        [now subst | apply is_custom_raises]. }
  rewrite for_each_app.
  rewrite (for_each_ext _ (predefined_body lib (resolved_self self)))
    by (intros; apply predefined_body_languages_only;
        apply resolved_languages_with).
  rewrite (for_each_ext _ (predefined_body lib (resolved_self self)))
    in Ha1
    by (intros; apply predefined_body_languages_only;
        apply resolved_languages_with).
  rewrite Ha1. simpl.
  rewrite predefined_body_appends. unfold predefined_instances in *.
  rewrite (predefined_body_languages_only _ (resolved_self self) e [])
    by apply resolved_languages_with.
  rewrite He. reflexivity.
Qed.

Lemma bare_name_instances_raise (self : RecognizerRegistryProvider)
      (e : pyval) (sc : dict) (scs : list dict) :
  _get_recognizer_languages (resolved_self self) e = Ok (sc :: scs) ->
  predefined_scope_instances lib e sc = Raise TypeError ->
  predefined_instances lib (resolved_self self) e = Raise TypeError.
Proof.
  intros Hl Hsc. unfold predefined_instances.
  rewrite predefined_body_scopes, Hl. simpl. now rewrite Hsc.
Qed.

(** C1.  The code does not do what the claim says: an enabled predefined
    entry whose name is bound to nothing in the library of built-in
    classes, and which has at least one language scope, makes
    [create_recognizer_registry] raise a type error (the [None] that the
    lookup falls back to is called) as soon as the entries before it
    have been processed. *)
Theorem unresolvable_predefined_name_raises
        (self : RecognizerRegistryProvider) (l1 l2 : list pyval)
        (e : pyval) (name : string) (sc : dict) (scs : list dict)
        (reg1 : RecognizerRegistry) :
  create_recognizer_registry lib from_dict (with_recognizers self l1)
  = Ok reg1 ->
  is_predefined e = Ok true ->
  enabled_entry e ->
  _get_recognizer_name e = Ok (PStr name) ->
  lib name = None ->
  _get_recognizer_languages (resolved_self self) e = Ok (sc :: scs) ->
  create_recognizer_registry lib from_dict
                             (with_recognizers self (l1 ++ e :: l2))
  = Raise TypeError.
Proof.
  intros H1 Hp (v & Hv & Ht) Hname Hlib Hl.
  apply (create_raises_at self l1 l2 e reg1 H1 Hp).
  apply (bare_name_instances_raise self e sc scs Hl).
  unfold predefined_scope_instances. rewrite Hv. simpl. rewrite Ht.
  rewrite Hname.
  destruct (_get_recognizer_items e) as [items|err] eqn:Ei; simpl.
  - now rewrite Hlib.
  - destruct e as [| | | | s | l | d]; discriminate.
Qed.

(** C10 (amended).  On a bare name the enabled check is a substring
    test: a name that does not contain [enabled] is enabled; on a name
    that contains it the check raises a type error, and
    [create_recognizer_registry] fails with that type error when the
    registry has at least one language and the entries before the name
    assemble without error. *)
Theorem bare_name_enabled_check_is_a_substring_test
        (self : RecognizerRegistryProvider) (l1 l2 : list pyval)
        (s : string) (lang : pyval) (langs : list pyval)
        (reg1 : RecognizerRegistry) :
  resolved_languages (configuration self) = PList (lang :: langs) ->
  create_recognizer_registry lib from_dict (with_recognizers self l1)
  = Ok reg1 ->
  (substring_of "enabled" s = false ->
   _is_recognizer_enabled (PStr s) = Ok (PBool true))
  /\ (substring_of "enabled" s = true ->
      _is_recognizer_enabled (PStr s) = Raise TypeError
      /\ create_recognizer_registry lib from_dict
           (with_recognizers self (l1 ++ PStr s :: l2))
         = Raise TypeError).
Proof.
  intros Hl H1. split; intros Hs.
  - unfold _is_recognizer_enabled. simpl. now rewrite Hs.
  - assert (Hcheck : _is_recognizer_enabled (PStr s) = Raise TypeError).
    { unfold _is_recognizer_enabled. simpl. now rewrite Hs. }
    split; [exact Hcheck|].
    apply (create_raises_at self l1 l2 (PStr s) reg1 H1); [reflexivity|].
    destruct (registry_wide_scopes (resolved_self self) (PStr s)
                                   (lang :: langs) I Hl)
      as (context & Hscopes).
    simpl in Hscopes.
    apply (bare_name_instances_raise self (PStr s) _ _ Hscopes).
    unfold predefined_scope_instances. now rewrite Hcheck.
Qed.

End Assembly.

(** ** Resolving the configuration *)

Section Resolver.

Variable package_dir : string.
Variable fs : filesystem.
Variable lib : string -> option (dict -> result EntityRecognizer).
Variable from_dict : pyval -> result EntityRecognizer.

Lemma snd_io_bind {A B : Type} (m : io A) (k : A -> io B) :
  snd (io_bind m k)
  = match snd m with
    | Ok a => snd (k a)
    | Raise e => Raise e
    end.
Proof.
  destruct m as [t [a|e]]; simpl; [|reflexivity].
  destruct (k a); reflexivity.
Qed.

Lemma conf_file_truthy_path (p : conf_path) :
  p <> StrPath "" -> conf_file_truthy (Some p) = true.
Proof.
  destruct p as [s|s]; simpl; [|reflexivity].
  intros H. destruct (String.eqb_spec s ""); [|reflexivity].
  subst. contradiction.
Qed.

(** Loading a file never raises the usage error. *)
Lemma add_missing_keys_no_usage_error (configuration : dict)
      (conf_file : conf_path) :
  raises_ValueError
    (snd (_add_missing_keys fs configuration conf_file)) = false.
Proof.
  unfold _add_missing_keys. simpl.
  destruct (fs (path_string conf_file)) as [| |v]; try reflexivity.
  destruct v; reflexivity.
Qed.

(** C3.  When the constructor is given both a path (a [Path] object or a
    non-empty string) and a non-empty inline mapping, it raises the usage
    error at once: no file has been opened, nothing has been logged, and
    no configuration is loaded. *)
Theorem both_sources_raise_the_usage_error
        (p : conf_path) (kv : string * pyval) (d : dict) :
  p <> StrPath "" ->
  _get_configuration package_dir fs (Some p) (Some (kv :: d))
  = ([], Raise (ValueError
      "Either conf_file or registry_configuration should be provided, not both."))
  /\ init package_dir fs (Some p) (Some (kv :: d))
     = ([], Raise (ValueError
      "Either conf_file or registry_configuration should be provided, not both.")).
Proof.
  intros Hp. apply conf_file_truthy_path in Hp.
  unfold init, _get_configuration. rewrite Hp. simpl. split; reflexivity.
Qed.

Lemma snd_io_try {A : Type} (m : io A) (handler : exn -> io A) :
  snd (io_try m handler)
  = match snd m with
    | Ok a => Ok a
    | Raise e => snd (handler e)
    end.
Proof.
  destruct m as [t [a|e]]; simpl; [reflexivity|].
  destruct (handler e); reflexivity.
Qed.

Lemma fst_io_bind {A B : Type} (m : io A) (k : A -> io B) :
  fst (io_bind m k)
  = fst m ++ match snd m with
             | Ok a => fst (k a)
             | Raise _ => []
             end.
Proof.
  destruct m as [t [a|e]]; simpl.
  - destruct (k a); reflexivity.
  - now rewrite app_nil_r.
Qed.

Lemma fst_io_try {A : Type} (m : io A) (handler : exn -> io A) :
  fst (io_try m handler)
  = fst m ++ match snd m with
             | Ok _ => []
             | Raise e => fst (handler e)
             end.
Proof.
  destruct m as [t [a|e]]; simpl.
  - now rewrite app_nil_r.
  - destruct (handler e); reflexivity.
Qed.

(** Without an inline mapping the resolver never raises the usage
    error. *)
Lemma no_inline_no_usage_error (conf_file : option conf_path) :
  raises_ValueError
    (snd (_get_configuration package_dir fs conf_file None)) = false.
Proof.
  unfold _get_configuration.
  rewrite andb_false_r.
  destruct conf_file as [p|]; [|apply add_missing_keys_no_usage_error].
  destruct (conf_file_truthy (Some p)); simpl negb; cbv iota;
    [|apply add_missing_keys_no_usage_error].
  rewrite snd_io_try.
  destruct (snd (_add_missing_keys fs [] p)) as [c|e]; [reflexivity|].
  destruct (is_IOError e); rewrite snd_io_bind;
    exact (add_missing_keys_no_usage_error
             [] (_get_full_conf_path package_dir default_conf_file)).
Qed.

(** The first thing the resolver does without an inline mapping is to
    open a file: the one at the path when a path is given. *)
Lemma no_inline_opens_first (p : conf_path) :
  hd_error (fst (_get_configuration package_dir fs (Some p) None))
  = Some (Opened
            (if conf_file_truthy (Some p) then path_string p
             else path_string
                    (_get_full_conf_path package_dir default_conf_file))).
Proof.
  unfold _get_configuration. rewrite andb_false_r.
  destruct (conf_file_truthy (Some p)); simpl negb; cbv iota.
  - rewrite fst_io_try. reflexivity.
  - reflexivity.
Qed.

(** C9.  With a path and an empty inline mapping the constructor does
    exactly what it does with the path alone: the same effects and the
    same outcome, which is never the usage error, and the first file it
    opens is the one at the path. *)
Theorem empty_inline_mapping_is_no_inline_configuration (p : conf_path) :
  _get_configuration package_dir fs (Some p) (Some [])
  = _get_configuration package_dir fs (Some p) None
  /\ init package_dir fs (Some p) (Some [])
     = init package_dir fs (Some p) None
  /\ raises_ValueError (snd (init package_dir fs (Some p) (Some [])))
     = false
  /\ hd_error (fst (init package_dir fs (Some p) (Some [])))
     = Some (Opened
               (if conf_file_truthy (Some p) then path_string p
                else path_string
                       (_get_full_conf_path package_dir default_conf_file))).
Proof.
  assert (E : _get_configuration package_dir fs (Some p) (Some [])
              = _get_configuration package_dir fs (Some p) None).
  { unfold _get_configuration.
    destruct (conf_file_truthy (Some p)); reflexivity. }
  split; [exact E|].
  split; [unfold init; now rewrite E|].
  unfold init. rewrite E. split.
  - rewrite snd_io_bind.
    pose proof (no_inline_no_usage_error (Some p)) as H.
    destruct (snd (_get_configuration package_dir fs (Some p) None));
      [reflexivity | exact H].
  - rewrite fst_io_bind.
    pose proof (no_inline_opens_first p) as H.
    destruct (fst (_get_configuration package_dir fs (Some p) None));
      [discriminate H | exact H].
Qed.

(** C6.  A path at which there is no file resolves to the configuration
    that no path at all resolves to (the packaged default document, or
    the failure to load it), and so gives the same registry. *)
Theorem missing_file_resolves_like_no_path (p : conf_path) :
  fs (path_string p) = NoSuchFile ->
  snd (_get_configuration package_dir fs (Some p) None)
  = snd (_get_configuration package_dir fs None None)
  /\ snd (provide package_dir fs lib from_dict (Some p) None)
     = snd (provide package_dir fs lib from_dict None None).
Proof.
  intros Hf.
  assert (E : snd (_get_configuration package_dir fs (Some p) None)
              = snd (_get_configuration package_dir fs None None)).
  { unfold _get_configuration.
    destruct (conf_file_truthy (Some p)); simpl; [|reflexivity].
    rewrite Hf. simpl.
    destruct (fs _) as [| |v]; reflexivity. }
  split; [exact E|].
  unfold provide, init. rewrite !snd_io_bind. now rewrite E.
Qed.

End Resolver.

(** ** Worked examples *)

Ltac run := vm_compute; reflexivity.

(** C1, at the input of the scenario: the bare name
    [CreditCardRecognizer], one registry language, and a build of the
    library without that class. *)
Lemma unresolvable_predefined_name_raises_witness :
  restricted_library "CreditCardRecognizer" = None
  /\ create_recognizer_registry restricted_library sample_from_dict
       (with_recognizers english ([] ++ PStr "CreditCardRecognizer" :: []))
     = Raise TypeError.
Proof.
  split; [reflexivity|].
  eapply (unresolvable_predefined_name_raises
            restricted_library sample_from_dict english [] []
            (PStr "CreditCardRecognizer") "CreditCardRecognizer").
  - run.
  - reflexivity.
  - exists (PBool true). split; reflexivity.
  - reflexivity.
  - reflexivity.
  - run.
Defined.

(** C2, for a custom entry: the entry of the class docstring adds one
    instance to a registry with two languages. *)
Lemma legacy_custom_entry_adds_one_instance_witness :
  exists reg reg' before r after,
    create_recognizer_registry sample_library sample_from_dict
      (with_recognizers english_german
         ([PStr "CreditCardRecognizer"] ++ PDict legacy_zip :: []))
    = Ok reg
    /\ create_recognizer_registry sample_library sample_from_dict
         (with_recognizers english_german
            ([PStr "CreditCardRecognizer"] ++ []))
       = Ok reg'
    /\ sample_from_dict (PDict legacy_zip) = Ok r
    /\ registry_recognizers reg' = before ++ after
    /\ registry_recognizers reg
       = before
           ++ [with_flags (resolved_flags (configuration english_german)) r]
           ++ after.
Proof.
  eexists.
  assert (H : create_recognizer_registry sample_library sample_from_dict
                (with_recognizers english_german
                   ([PStr "CreditCardRecognizer"] ++ PDict legacy_zip :: []))
              = Ok _) by run.
  destruct (legacy_custom_entry_adds_one_instance
              sample_library sample_from_dict english_german
              [PStr "CreditCardRecognizer"] [] legacy_zip _
              eq_refl
              (ex_intro _ (PBool true) (conj eq_refl eq_refl))
              eq_refl H)
    as (reg' & before & r & after & H1 & H2 & H3 & H4).
  exists reg', before, r, after. repeat split; assumption.
Defined.

(** C2, as stated, fails for a predefined entry: with two registry
    languages the entry with the singular field adds two instances. *)
Lemma legacy_predefined_entry_is_expanded :
  is_predefined (PDict singular_credit_card) = Ok true
  /\ _is_recognizer_enabled (PDict singular_credit_card) = Ok (PBool true)
  /\ dict_mem "supported_language" singular_credit_card = true
  /\ exists reg,
      create_recognizer_registry sample_library sample_from_dict
        (with_recognizers english_german [PDict singular_credit_card])
      = Ok reg
      /\ List.length (registry_recognizers reg) = 2
      /\ List.length (registry_recognizers reg) <> 1.
Proof.
  split; [reflexivity|]. split; [reflexivity|]. split; [reflexivity|].
  eexists. split; [run|]. split; [reflexivity | discriminate].
Qed.

(** C3, for a path given as a string. *)
Lemma both_sources_raise_the_usage_error_witness :
  _get_configuration "/pkg" sample_fs (Some (StrPath "registry.yaml"))
                     (Some [("supported_languages", PList [PStr "de"])])
  = ([], Raise (ValueError
      "Either conf_file or registry_configuration should be provided, not both."))
  /\ init "/pkg" sample_fs (Some (StrPath "registry.yaml"))
          (Some [("supported_languages", PList [PStr "de"])])
     = ([], Raise (ValueError
      "Either conf_file or registry_configuration should be provided, not both.")).
Proof.
  apply (both_sources_raise_the_usage_error "/pkg" sample_fs
           (StrPath "registry.yaml")).
  discriminate.
Defined.

(** C4, for a custom entry and two registry languages. *)
Lemma entry_without_language_adds_one_instance_per_language_witness :
  exists reg reg' before built after,
    create_recognizer_registry sample_library sample_from_dict
      (with_recognizers english_german
         ([PStr "SpacyRecognizer"] ++ PDict plain_zip :: []))
    = Ok reg
    /\ create_recognizer_registry sample_library sample_from_dict
         (with_recognizers english_german ([PStr "SpacyRecognizer"] ++ []))
       = Ok reg'
    /\ registry_recognizers reg' = before ++ after
    /\ registry_recognizers reg = before ++ built ++ after
    /\ Forall2 (built_for sample_library sample_from_dict
                          (resolved_flags (configuration english_german))
                          (PDict plain_zip))
               [PStr "en"; PStr "de"] built
    /\ List.length built = 2.
Proof.
  eexists.
  assert (H : create_recognizer_registry sample_library sample_from_dict
                (with_recognizers english_german
                   ([PStr "SpacyRecognizer"] ++ PDict plain_zip :: []))
              = Ok _) by run.
  destruct (entry_without_language_adds_one_instance_per_language
              sample_library sample_from_dict english_german
              [PStr "SpacyRecognizer"] [] (PDict plain_zip)
              [PStr "en"; PStr "de"] _
              eq_refl (conj eq_refl eq_refl) (or_intror eq_refl)
              (ex_intro _ (PBool true) (conj eq_refl eq_refl)) H)
    as (reg' & before & built & after & H1 & H2 & H3 & H4 & H5).
  exists reg', before, built, after. repeat split; assumption.
Defined.

(** C4, as stated, fails for a mapping of an unknown [type]: enabled, with
    no language field, and two registry languages, it adds no instance. *)
Lemma enabled_entry_of_unknown_type_adds_no_instance :
  no_language_field (PDict regex_entry)
  /\ _is_recognizer_enabled (PDict regex_entry) = Ok (PBool true)
  /\ resolved_languages (configuration english_german)
     = PList [PStr "en"; PStr "de"]
  /\ exists reg,
      create_recognizer_registry sample_library sample_from_dict
        (with_recognizers english_german [PDict regex_entry])
      = Ok reg
      /\ registry_recognizers reg = []
      /\ List.length (registry_recognizers reg)
         <> List.length [PStr "en"; PStr "de"].
Proof.
  split; [split; reflexivity|]. split; [reflexivity|].
  split; [reflexivity|].
  eexists. split; [run|]. split; [reflexivity | discriminate].
Qed.

(** C5, for a disabled predefined entry between two enabled ones. *)
Lemma disabled_entry_adds_no_instance_witness :
  exists reg,
    create_recognizer_registry sample_library sample_from_dict
      (with_recognizers english_german
         ([PStr "SpacyRecognizer"] ++ PDict disabled_credit_card
                                   :: [PDict plain_zip]))
    = Ok reg
    /\ create_recognizer_registry sample_library sample_from_dict
         (with_recognizers english_german
            ([PStr "SpacyRecognizer"] ++ [PDict plain_zip]))
       = Ok reg
    /\ List.length (registry_recognizers reg) = 4.
Proof.
  eexists. split; [run|]. split; [|reflexivity].
  apply (disabled_entry_adds_no_instance
           sample_library sample_from_dict english_german
           [PStr "SpacyRecognizer"] [PDict plain_zip] disabled_credit_card).
  - reflexivity.
  - run.
Defined.

(** C6, for a path at which there is no file. *)
Lemma missing_file_resolves_like_no_path_witness :
  snd (_get_configuration "/pkg" sample_fs (Some (StrPath "missing.yaml"))
                          None)
  = snd (_get_configuration "/pkg" sample_fs None None)
  /\ snd (provide "/pkg" sample_fs sample_library sample_from_dict
                  (Some (StrPath "missing.yaml")) None)
     = snd (provide "/pkg" sample_fs sample_library sample_from_dict
                    None None).
Proof.
  apply (missing_file_resolves_like_no_path
           "/pkg" sample_fs sample_library sample_from_dict
           (StrPath "missing.yaml")).
  reflexivity.
Defined.


(** C8, with the default flags and with flags of the configuration. *)
Lemma pattern_instances_carry_the_global_flags_witness :
  (exists reg,
      create_recognizer_registry sample_library sample_from_dict
        (with_recognizers english
           [PStr "CreditCardRecognizer"; PStr "SpacyRecognizer";
            PDict legacy_zip])
      = Ok reg
      /\ registry_global_regex_flags reg = PInt 26
      /\ Forall (fun r => is_PatternRecognizer r = true ->
                          get_attribute r "global_regex_flags" = Some (PInt 26))
                (registry_recognizers reg))
  /\ (exists reg,
        create_recognizer_registry sample_library sample_from_dict
          (provider_of [("global_regex_flags", PInt re_IGNORECASE);
                        ("recognizers", PList [PDict coded_zip])])
        = Ok reg
        /\ registry_global_regex_flags reg = PInt 2
        /\ Forall (fun r => is_PatternRecognizer r = true ->
                            get_attribute r "global_regex_flags" = Some (PInt 2))
                  (registry_recognizers reg)).
Proof.
  split.
  - eexists. split; [run|].
    apply (pattern_instances_carry_the_global_flags
             sample_library sample_from_dict
             (with_recognizers english
                [PStr "CreditCardRecognizer"; PStr "SpacyRecognizer";
                 PDict legacy_zip])); [run | reflexivity].
  - eexists. split; [run|].
    apply (pattern_instances_carry_the_global_flags
             sample_library sample_from_dict
             (provider_of [("global_regex_flags", PInt re_IGNORECASE);
                           ("recognizers", PList [PDict coded_zip])]));
      [run | reflexivity].
Defined.

(** C10, for a name without and a name with the substring. *)
Lemma bare_name_enabled_check_is_a_substring_test_witness :
  _is_recognizer_enabled (PStr "SpacyRecognizer") = Ok (PBool true)
  /\ _is_recognizer_enabled (PStr "not_enabled_yet") = Raise TypeError
  /\ create_recognizer_registry sample_library sample_from_dict
       (with_recognizers english
          ([PStr "SpacyRecognizer"] ++ PStr "not_enabled_yet" :: []))
     = Raise TypeError.
Proof.
  assert (H0 : create_recognizer_registry sample_library sample_from_dict
                 (with_recognizers english [])
               = Ok _) by run.
  assert (H1 : create_recognizer_registry sample_library sample_from_dict
                 (with_recognizers english [PStr "SpacyRecognizer"])
               = Ok _) by run.
  split.
  - apply (proj1 (bare_name_enabled_check_is_a_substring_test
                    sample_library sample_from_dict english [] []
                    "SpacyRecognizer" (PStr "en") [] _ eq_refl H0)).
    reflexivity.
  - apply (proj2 (bare_name_enabled_check_is_a_substring_test
                    sample_library sample_from_dict english
                    [PStr "SpacyRecognizer"] []
                    "not_enabled_yet" (PStr "en") [] _ eq_refl H1)).
    reflexivity.
Defined.

(** C10, as stated, fails when the registry has no language: the check is
    never run and the registry is assembled, empty. *)
Lemma bare_name_with_enabled_is_skipped_without_language :
  substring_of "enabled" "not_enabled_yet" = true
  /\ create_recognizer_registry sample_library sample_from_dict
       (with_recognizers no_language [PStr "not_enabled_yet"])
     = Ok {| registry_supported_languages := PList [];
             registry_recognizers := [];
             registry_global_regex_flags := PInt 26 |}.
Proof.
  split; reflexivity.
Qed.

(** The scenario of the specification: one custom entry, two registry
    languages, two instances with the languages in order. *)
Example custom_entry_two_languages :
  exists r1 r2,
    create_recognizer_registry sample_library sample_from_dict
      (provider_of
         [("recognizers",
           PList [PDict [("name", PStr "ZIP"); ("type", PStr "custom");
                         ("supported_entity", PStr "ZIP");
                         ("patterns", sample_patterns)]]);
          ("supported_languages", PList [PStr "en"; PStr "es"])])
    = Ok {| registry_supported_languages := PList [PStr "en"; PStr "es"];
            registry_recognizers := [r1; r2];
            registry_global_regex_flags := PInt 26 |}
    /\ get_attribute r1 "supported_language" = Some (PStr "en")
    /\ get_attribute r2 "supported_language" = Some (PStr "es")
    /\ get_attribute r1 "supported_entity" = Some (PStr "ZIP")
    /\ get_attribute r1 "patterns" = Some sample_patterns.
Proof.
  do 2 eexists. split; [run|]. repeat split.
Qed.

(** A path with no file behind it: one failed [open], one warning, then
    the default document. *)
Example missing_file_trace :
  _get_configuration "/pkg" sample_fs (Some (StrPath "missing.yaml")) None
  = ([Opened "missing.yaml";
      Warned "configuration file missing.yaml not found.  Using default config.";
      Opened "/pkg/conf/default_recognizers.yaml"],
     Ok [("supported_languages", PList [PStr "en"]);
         ("recognizers", PList [PStr "CreditCardRecognizer"])]).
Proof. reflexivity. Qed.

(** The inline mapping wins key by key over the default document. *)
Example inline_mapping_is_layered_over_the_default :
  _get_configuration "/pkg" sample_fs None
                     (Some [("supported_languages", PList [PStr "de"])])
  = ([Opened "/pkg/conf/default_recognizers.yaml"],
     Ok [("supported_languages", PList [PStr "de"]);
         ("recognizers", PList [PStr "CreditCardRecognizer"])]).
Proof. reflexivity. Qed.

(** * Further properties *)

(** ** Lookups in merged and filtered mappings *)

Lemma dict_get_set (k k' : string) (v : pyval) (d : dict) :
  dict_get k' (dict_set k v d)
  = if String.eqb k k' then Some v else dict_get k' d.
Proof.
  destruct (String.eqb_spec k k') as [<-|Hne].
  - apply dict_get_set_same.
  - now apply dict_get_set_other.
Qed.

Lemma dict_get_app (k : string) (a b : dict) :
  dict_get k (a ++ b)
  = match dict_get k a with
    | Some v => Some v
    | None => dict_get k b
    end.
Proof.
  induction a as [|[k' v'] a IH]; simpl; [reflexivity|].
  destruct (String.eqb k k'); [reflexivity | exact IH].
Qed.

Lemma dict_get_filter_key (f : string -> bool) (k : string) (d : dict) :
  dict_get k (filter (fun kv => f (fst kv)) d)
  = if f k then dict_get k d else None.
Proof.
  induction d as [|[k' v'] d IH]; simpl.
  - now destruct (f k).
  - destruct (f k') eqn:Ek'; simpl.
    + destruct (String.eqb_spec k k') as [->|Hne].
      * now rewrite Ek'.
      * exact IH.
    + destruct (String.eqb_spec k k') as [->|Hne].
      * rewrite IH. now rewrite Ek'.
      * exact IH.
Qed.

Lemma dict_set_absent (k : string) (v : pyval) (d : dict) :
  dict_get k d = None -> dict_set k v d = d ++ [(k, v)].
Proof.
  induction d as [|[k' v'] d IH]; simpl; [reflexivity|].
  destruct (String.eqb k k'); [discriminate|].
  intros H. now rewrite IH.
Qed.

(** Updating a mapping with distinct keys it does not have appends them,
    in order. *)
Lemma dict_merge_new_keys (c xs : dict) :
  NoDup (map fst xs) ->
  (forall kv, In kv xs -> dict_get (fst kv) c = None) ->
  dict_merge c xs = c ++ xs.
Proof.
  unfold dict_merge. revert c.
  induction xs as [|[k v] xs IH]; intros c Hnd Hnew; simpl.
  - now rewrite app_nil_r.
  - inversion Hnd as [|? ? Hk Hnd']; subst.
    rewrite dict_set_absent by (apply (Hnew (k, v)); now left).
    rewrite IH; [now rewrite <- app_assoc | exact Hnd' |].
    intros [k' v'] Hin. simpl. rewrite dict_get_app.
    pose proof (Hnew (k', v') (or_intror Hin)) as H. simpl in H.
    rewrite H. simpl.
    destruct (String.eqb_spec k' k) as [->|]; [|reflexivity].
    exfalso. apply Hk. apply in_map_iff. now exists (k, v').
Qed.

Lemma filter_keys_NoDup (f : string * pyval -> bool) (d : dict) :
  NoDup (map fst d) -> NoDup (map fst (filter f d)).
Proof.
  induction d as [|kv d IH]; simpl; intros H; [constructor|].
  inversion H as [|? ? Hk Hd]; subst.
  destruct (f kv); simpl; [|now apply IH].
  constructor; [|now apply IH].
  intros Hin. apply Hk. apply in_map_iff in Hin as (x & Hx & Hin).
  apply filter_In in Hin as [Hin _]. apply in_map_iff. now exists x.
Qed.

(** ** The configuration resolver, beyond the error case *)

Section ResolverLaws.

Variable package_dir : string.
Variable fs : filesystem.

(** What [_add_missing_keys] returns when the document is a mapping with
    distinct keys: the caller's mapping, then the keys it lacks. *)
Lemma add_missing_keys_layers (configuration defaults : dict)
      (conf_file : conf_path) :
  fs (path_string conf_file) = Document (PDict defaults) ->
  NoDup (map fst defaults) ->
  _add_missing_keys fs configuration conf_file
  = ([Opened (path_string conf_file)],
     Ok (configuration
           ++ filter (fun kv => negb (dict_mem (fst kv) configuration))
                     defaults)).
Proof.
  intros Hf Hnd. unfold _add_missing_keys. rewrite Hf. simpl.
  rewrite dict_merge_new_keys; [reflexivity | now apply filter_keys_NoDup |].
  intros kv Hin. apply filter_In in Hin as [_ Hin].
  unfold dict_mem in Hin. now destruct (dict_get (fst kv) configuration).
Qed.

(** X1.  An inline mapping given without a path is layered over the
    packaged default document key by key: the resolved configuration is
    the inline mapping, in its order, followed by the keys of the default
    document that it lacks; so every key of the inline mapping keeps its
    value and only an absent key takes the default's.  The default
    document is the one file opened. *)
Theorem inline_mapping_is_layered_over_the_default_document
        (conf_file : option conf_path) (kv : string * pyval)
        (d defaults : dict) :
  conf_file_truthy conf_file = false ->
  fs (default_document_path package_dir) = Document (PDict defaults) ->
  NoDup (map fst defaults) ->
  exists cfg,
    _get_configuration package_dir fs conf_file (Some (kv :: d))
    = ([Opened (default_document_path package_dir)], Ok cfg)
    /\ cfg = (kv :: d)
               ++ filter (fun e => negb (dict_mem (fst e) (kv :: d)))
                         defaults
    /\ forall k,
        dict_get k cfg
        = match dict_get k (kv :: d) with
          | Some v => Some v
          | None => dict_get k defaults
          end.
Proof.
  intros Hc Hf Hnd. eexists. split; [|split; [reflexivity|]].
  - unfold _get_configuration. rewrite Hc. cbn [andb].
    cbn [registry_configuration_truthy].
    assert (E : _add_missing_keys fs (kv :: d)
                  (_get_full_conf_path package_dir default_conf_file)
                = ([Opened (default_document_path package_dir)],
                   Ok ((kv :: d)
                         ++ filter (fun e => negb (dict_mem (fst e) (kv :: d)))
                                   defaults)))
      by now apply add_missing_keys_layers.
    destruct conf_file as [p|]; [|exact E].
    rewrite Hc. exact E.
  - intros k. rewrite dict_get_app.
    destruct (dict_get k (kv :: d)) as [v|] eqn:Ek; [reflexivity|].
    rewrite (dict_get_filter_key (fun k' => negb (dict_mem k' (kv :: d)))).
    unfold dict_mem. now rewrite Ek.
Qed.

(** X2.  Whatever is wrong with the file at the path (no such file, a
    document that does not parse, a document that is not a mapping), the
    resolver opens it, logs one warning and then does what it does
    without a path: the same file opened next, the same result.  The
    warning says [not found] only when [open] failed. *)
Theorem unloadable_path_falls_back_to_the_default_document
        (p : conf_path) :
  p <> StrPath "" ->
  (forall d, fs (path_string p) <> Document (PDict d)) ->
  _get_configuration package_dir fs (Some p) None
  = (Opened (path_string p)
       :: Warned (match fs (path_string p) with
                  | NoSuchFile =>
                      "configuration file " ++ path_string p
                        ++ " not found.  Using default config."
                  | _ =>
                      "Failed to parse file " ++ path_string p
                        ++ ", resorting to default"
                  end)
       :: fst (_get_configuration package_dir fs None None),
     snd (_get_configuration package_dir fs None None)).
Proof.
  intros Hp Hbad. unfold _get_configuration.
  rewrite (conf_file_truthy_path p Hp). simpl.
  destruct (fs (path_string p)) as [| |v] eqn:Ef; simpl.
  - destruct (fs _); reflexivity.
  - destruct (fs _); reflexivity.
  - destruct v; simpl; try (destruct (fs _); reflexivity).
    exfalso. now apply (Hbad d).
Qed.

(** X3.  A path whose document is a mapping is the whole configuration:
    that file is the only one opened, nothing is logged, and the result
    is the document as it is, with no key taken from the packaged default
    document. *)
Theorem loadable_path_is_the_whole_configuration
        (p : conf_path) (doc : dict) :
  p <> StrPath "" ->
  fs (path_string p) = Document (PDict doc) ->
  NoDup (map fst doc) ->
  _get_configuration package_dir fs (Some p) None
  = ([Opened (path_string p)], Ok doc).
Proof.
  intros Hp Hf Hnd. unfold _get_configuration.
  rewrite (conf_file_truthy_path p Hp). simpl negb. cbv iota.
  cbn [andb]. rewrite (add_missing_keys_layers [] doc p Hf Hnd).
  simpl. f_equal. f_equal.
  clear. induction doc as [|kv doc IH]; simpl; [reflexivity|].
  now rewrite IH.
Qed.

(** X4.  Without a path the packaged default document is always loaded,
    also when the inline mapping has every key: when that document cannot
    be loaded as a mapping, the resolver raises, with the error of the
    load, and nothing recovers it. *)
Theorem default_document_is_always_needed
        (conf_file : option conf_path) (rc : option dict) :
  conf_file_truthy conf_file = false ->
  (forall d, fs (default_document_path package_dir) <> Document (PDict d)) ->
  _get_configuration package_dir fs conf_file rc
  = ([Opened (default_document_path package_dir)],
     Raise (match fs (default_document_path package_dir) with
            | NoSuchFile => IOError
            | Malformed => YAMLError
            | Document _ => AttributeError
            end)).
Proof.
  intros Hc Hbad. unfold _get_configuration. rewrite Hc. cbn [andb].
  assert (E : forall c,
             _add_missing_keys fs c
               (_get_full_conf_path package_dir default_conf_file)
             = ([Opened (default_document_path package_dir)],
                Raise (match fs (default_document_path package_dir) with
                       | NoSuchFile => IOError
                       | Malformed => YAMLError
                       | Document _ => AttributeError
                       end))).
  { intros c. unfold _add_missing_keys.
    fold (default_document_path package_dir).
    destruct (fs (default_document_path package_dir)) as [| |v] eqn:Ef;
      try reflexivity.
    destruct v; try reflexivity. exfalso. now apply (Hbad d). }
  destruct conf_file as [p|]; [rewrite Hc|]; apply E.
Qed.

End ResolverLaws.

(** ** The registry, beyond one entry *)

Section AssemblyLaws.

Variable lib : string -> option (dict -> result EntityRecognizer).
Variable from_dict : pyval -> result EntityRecognizer.

(** [create_recognizer_registry] reads the declared entries only through
    [_split_recognizers]. *)
Lemma create_same_split (self : RecognizerRegistryProvider)
      (l l' : list pyval) :
  _split_recognizers (PList l) = _split_recognizers (PList l') ->
  create_recognizer_registry lib from_dict (with_recognizers self l)
  = create_recognizer_registry lib from_dict (with_recognizers self l').
Proof.
  intros H. rewrite !create_unfold. cbv zeta.
  rewrite !resolved_recognizers_with, !resolved_languages_with,
    !resolved_flags_with, H.
  destruct (_split_recognizers (PList l')) as [split|e]; [|reflexivity].
  cbn [bind].
  match goal with
  | |- bind (for_each _ (predefined_body _ ?s1) _) _
       = bind (for_each _ (predefined_body _ ?s2) _) _ =>
      rewrite (for_each_ext (predefined_body lib s1)
                            (predefined_body lib s2))
        by (intros; now apply predefined_body_languages_only);
      destruct (for_each (fst split) (predefined_body lib s2) [])
        as [a|e]; [|reflexivity];
      cbn [bind];
      rewrite (for_each_ext (custom_body from_dict s1)
                            (custom_body from_dict s2))
        by (intros; now apply custom_body_languages_only)
  end.
  reflexivity.
Qed.

Lemma comprehension_if_skip {A : Type} (p : A -> result bool)
      (x : A) (xs : list A) :
  p x = Ok false -> comprehension_if p (x :: xs) = comprehension_if p xs.
Proof.
  intros H. simpl. rewrite H. simpl.
  destruct (comprehension_if p xs); reflexivity.
Qed.

Lemma comprehension_if_keep {A : Type} (p : A -> result bool)
      (x : A) (xs : list A) :
  p x = Ok true ->
  comprehension_if p (x :: xs)
  = (ys <- comprehension_if p xs ;; Ok (x :: ys)).
Proof.
  intros H. simpl. now rewrite H.
Qed.

(** X5.  A mapping whose [type] is neither ["predefined"] nor ["custom"]
    is in neither list of [_split_recognizers]: the run with the entry is
    the run without it, whatever else the entry holds, and whether the
    run returns or raises. *)
Theorem entry_of_unknown_type_is_dropped
        (self : RecognizerRegistryProvider) (l1 l2 : list pyval)
        (d : dict) (t : pyval) :
  dict_get "type" d = Some t ->
  eq_str t "predefined" = false ->
  eq_str t "custom" = false ->
  create_recognizer_registry lib from_dict
                             (with_recognizers self (l1 ++ PDict d :: l2))
  = create_recognizer_registry lib from_dict
                               (with_recognizers self (l1 ++ l2)).
Proof.
  intros Ht Hp Hc. apply create_same_split.
  unfold _split_recognizers. simpl.
  rewrite !comprehension_if_app.
  rewrite (comprehension_if_skip is_predefined)
    by (rewrite is_predefined_dict, Ht; now rewrite Hp).
  rewrite (comprehension_if_skip is_custom)
    by (rewrite is_custom_dict, Ht; now rewrite Hc).
  reflexivity.
Qed.

(** X6.  The registry does not depend on how custom and predefined
    entries are interleaved in the configuration: exchanging a custom
    entry with the predefined entry that follows it changes nothing, in
    the result or in the error.  (All predefined entries are processed
    before the first custom one.) *)
Theorem custom_and_predefined_entries_commute
        (self : RecognizerRegistryProvider) (l1 l2 : list pyval)
        (c p : pyval) :
  is_custom c = Ok true ->
  is_predefined p = Ok true ->
  create_recognizer_registry lib from_dict
                             (with_recognizers self (l1 ++ c :: p :: l2))
  = create_recognizer_registry lib from_dict
                               (with_recognizers self (l1 ++ p :: c :: l2)).
Proof.
  intros Hc Hp. apply create_same_split.
  assert (Hcp : is_predefined c = Ok false).
  { destruct c as [| | | | s | l | d]; try discriminate.
    - unfold is_predefined, is_custom in *. simpl in *.
      destruct (existsb _ l); [discriminate | reflexivity].
    - now apply custom_not_predefined. }
  pose proof (predefined_not_custom p Hp) as Hpc.
  unfold _split_recognizers. simpl.
  rewrite !comprehension_if_app.
  rewrite (comprehension_if_skip is_predefined c) by exact Hcp.
  rewrite (comprehension_if_keep is_predefined p (c :: l2)) by exact Hp.
  rewrite (comprehension_if_skip is_predefined c) by exact Hcp.
  rewrite (comprehension_if_keep is_predefined p l2) by exact Hp.
  rewrite (comprehension_if_keep is_custom c (p :: l2)) by exact Hc.
  rewrite (comprehension_if_skip is_custom p) by exact Hpc.
  rewrite (comprehension_if_skip is_custom p) by exact Hpc.
  rewrite (comprehension_if_keep is_custom c l2) by exact Hc.
  reflexivity.
Qed.

(** X7.  An entry that is a number, a boolean or [None] makes
    [create_recognizer_registry] raise a type error wherever it stands in
    the list and whatever the other entries are: the entries are all
    classified before the first instance is built. *)
Theorem scalar_entry_raises_a_type_error
        (self : RecognizerRegistryProvider) (l1 l2 : list pyval)
        (e : pyval) :
  is_scalar e = true ->
  create_recognizer_registry lib from_dict
                             (with_recognizers self (l1 ++ e :: l2))
  = Raise TypeError.
Proof.
  intros He. rewrite create_unfold. cbv zeta.
  rewrite resolved_recognizers_with. unfold _split_recognizers. simpl.
  rewrite comprehension_if_app.
  destruct (comprehension_if is_predefined l1) as [a|err] eqn:E1; simpl.
  - destruct e; try discriminate; reflexivity.
  - apply comprehension_if_raises in E1; [now subst|].
    apply is_predefined_raises.
Qed.

(** X8.  A configuration without the key [recognizers], or with an empty
    list under it, always assembles: the registry has no instance, the
    resolved languages and the resolved flags. *)
Theorem no_entry_gives_the_empty_registry
        (self : RecognizerRegistryProvider) :
  resolved_recognizers (configuration self) = PList [] ->
  create_recognizer_registry lib from_dict self
  = Ok {| registry_supported_languages :=
            resolved_languages (configuration self);
          registry_recognizers := [];
          registry_global_regex_flags :=
            resolved_flags (configuration self) |}.
Proof.
  intros H. rewrite create_unfold. cbv zeta. now rewrite H.
Qed.

Lemma assembled_concatenation (self : RecognizerRegistryProvider)
      (P1 P2 C1 C2 : list EntityRecognizer) :
  Permutation
    (registry_recognizers (assembled self ((P1 ++ P2) ++ (C1 ++ C2))))
    (registry_recognizers (assembled self (P1 ++ C1))
       ++ registry_recognizers (assembled self (P2 ++ C2))).
Proof.
  unfold assembled. cbn [registry_recognizers]. rewrite <- map_app.
  apply Permutation_map. rewrite <- !app_assoc.
  apply Permutation_app_head. apply Permutation_app_swap_app.
Qed.

(** X9.  A configuration that assembles can be cut anywhere: the entries
    before the cut and the entries after it assemble on their own (with
    the same top-level settings), and the instances of the whole are
    those of the two parts, the predefined ones moved to the front. *)
Theorem parts_of_an_assembling_configuration_assemble
        (self : RecognizerRegistryProvider) (l1 l2 : list pyval)
        (reg : RecognizerRegistry) :
  create_recognizer_registry lib from_dict
                             (with_recognizers self (l1 ++ l2))
  = Ok reg ->
  exists r1 r2,
    create_recognizer_registry lib from_dict (with_recognizers self l1)
    = Ok r1
    /\ create_recognizer_registry lib from_dict (with_recognizers self l2)
       = Ok r2
    /\ Permutation (registry_recognizers reg)
                   (registry_recognizers r1 ++ registry_recognizers r2)
    /\ List.length (registry_recognizers reg)
       = List.length (registry_recognizers r1)
         + List.length (registry_recognizers r2).
Proof.
  intros H. apply create_with_Ok in H as (pss & css & HP & HC & ->).
  apply Forall2_app_inv_l in HP as (pss1 & pss2 & HP1 & HP2 & ->).
  apply Forall2_app_inv_l in HC as (css1 & css2 & HC1 & HC2 & ->).
  exists (assembled self (List.concat pss1 ++ List.concat css1)),
         (assembled self (List.concat pss2 ++ List.concat css2)).
  assert (HPerm : Permutation
            (registry_recognizers
               (assembled self (List.concat (pss1 ++ pss2)
                                  ++ List.concat (css1 ++ css2))))
            (registry_recognizers
               (assembled self (List.concat pss1 ++ List.concat css1))
             ++ registry_recognizers
                  (assembled self (List.concat pss2 ++ List.concat css2)))).
  { rewrite !concat_app. apply assembled_concatenation. }
  repeat split.
  - apply create_with_Ok. now exists pss1, css1.
  - apply create_with_Ok. now exists pss2, css2.
  - exact HPerm.
  - rewrite (Permutation_length HPerm). apply length_app.
Qed.

(** X10.  Conversely, two lists of entries that assemble on their own
    assemble together: no entry can make another one fail, and the
    instances are those of the two registries. *)
Theorem assembling_configurations_can_be_joined
        (self : RecognizerRegistryProvider) (l1 l2 : list pyval)
        (r1 r2 : RecognizerRegistry) :
  create_recognizer_registry lib from_dict (with_recognizers self l1)
  = Ok r1 ->
  create_recognizer_registry lib from_dict (with_recognizers self l2)
  = Ok r2 ->
  exists reg,
    create_recognizer_registry lib from_dict
                               (with_recognizers self (l1 ++ l2))
    = Ok reg
    /\ Permutation (registry_recognizers reg)
                   (registry_recognizers r1 ++ registry_recognizers r2).
Proof.
  intros H1 H2.
  apply create_with_Ok in H1 as (pss1 & css1 & HP1 & HC1 & ->).
  apply create_with_Ok in H2 as (pss2 & css2 & HP2 & HC2 & ->).
  exists (assembled self (List.concat (pss1 ++ pss2)
                            ++ List.concat (css1 ++ css2))).
  split.
  - apply create_with_Ok. exists (pss1 ++ pss2), (css1 ++ css2).
    repeat split; now apply Forall2_app.
  - rewrite !concat_app. apply assembled_concatenation.
Qed.

(** The check on a mapping with the key returns the value under it. *)
Lemma enabled_check_reads_the_key (d : dict) (v : pyval) :
  dict_get "enabled" d = Some v ->
  _is_recognizer_enabled (PDict d) = Ok v.
Proof.
  intros H. unfold _is_recognizer_enabled. simpl. unfold dict_mem.
  now rewrite H.
Qed.

(** X11.  Not only [false] disables an entry: every value of [enabled]
    that Python reads as false ([0], the empty string, [null], an empty
    list or mapping) does.  A registry assembled with such an entry is
    the registry assembled without it. *)
Theorem false_value_of_enabled_disables_the_entry
        (self : RecognizerRegistryProvider) (l1 l2 : list pyval)
        (d : dict) (v : pyval) (reg : RecognizerRegistry) :
  dict_get "enabled" d = Some v ->
  truthy v = false ->
  create_recognizer_registry lib from_dict
                             (with_recognizers self (l1 ++ PDict d :: l2))
  = Ok reg ->
  create_recognizer_registry lib from_dict
                             (with_recognizers self (l1 ++ l2))
  = Ok reg.
Proof.
  intros Hd Hv H.
  apply create_entry_adds in H
    as (P1 & P2 & C1 & C2 & pe & ce & Hpe & Hce & Hrest & ->).
  assert (pe = []) as ->.
  { unfold adds_predefined, selected in Hpe.
    apply bind_Ok in Hpe as ([] & _ & Hpe); [|now injection Hpe].
    unfold predefined_instances in Hpe.
    rewrite predefined_body_scopes in Hpe.
    apply bind_Ok in Hpe as (languages & _ & Hpe).
    apply bind_Ok in Hpe as (ls & Hls & Hpe). injection Hpe as <-. simpl.
    apply comprehension_Ok in Hls. apply (concat_all_nil languages).
    eapply Forall2_impl; [|exact Hls]. intros sc l Hl.
    unfold predefined_scope_instances in Hl.
    rewrite (enabled_check_reads_the_key d v Hd) in Hl. simpl in Hl.
    rewrite Hv in Hl. now injection Hl. }
  assert (ce = []) as ->.
  { unfold adds_custom, selected in Hce.
    apply bind_Ok in Hce as ([] & _ & Hce); [|now injection Hce].
    unfold custom_instances, custom_body in Hce.
    rewrite (enabled_check_reads_the_key d v Hd) in Hce. simpl in Hce.
    rewrite Hv in Hce. now injection Hce. }
  exact Hrest.
Qed.

(** ** Errors of the language expansion *)

(** [create_recognizer_registry] on declared entries, with the loops run
    in the provider whose languages are resolved. *)
Lemma create_with_unfold (self : RecognizerRegistryProvider)
      (l : list pyval) :
  create_recognizer_registry lib from_dict (with_recognizers self l)
  = (split <- _split_recognizers (PList l) ;;
     a <- for_each (fst split) (predefined_body lib (resolved_self self)) [] ;;
     b <- for_each (snd split) (custom_body from_dict (resolved_self self))
                   a ;;
     Ok (assembled self b)).
Proof.
  rewrite create_unfold. cbv zeta.
  rewrite resolved_recognizers_with, !resolved_languages_with,
    !resolved_flags_with.
  destruct (_split_recognizers (PList l)) as [split|e]; [|reflexivity].
  cbn [bind].
  match goal with
  | |- bind (for_each _ (predefined_body _ ?s1) _) _ = _ =>
      rewrite (for_each_ext (predefined_body lib s1)
                            (predefined_body lib (resolved_self self)))
        by (intros; now apply predefined_body_languages_only);
      destruct (for_each (fst split)
                         (predefined_body lib (resolved_self self)) [])
        as [a|e]; [|reflexivity];
      cbn [bind];
      rewrite (for_each_ext (custom_body from_dict s1)
                            (custom_body from_dict (resolved_self self)))
        by (intros; now apply custom_body_languages_only)
  end.
  reflexivity.
Qed.

Lemma comprehension_if_app_Ok {A : Type} (p : A -> result bool)
      (xs ys r : list A) :
  comprehension_if p (xs ++ ys) = Ok r ->
  exists a b, comprehension_if p xs = Ok a
              /\ comprehension_if p ys = Ok b /\ r = a ++ b.
Proof.
  rewrite comprehension_if_app. intros H.
  apply bind_Ok in H as (a & Ha & H).
  apply bind_Ok in H as (b & Hb & H). injection H as <-.
  now exists a, b.
Qed.

Lemma custom_entry_is_not_predefined (e : pyval) :
  is_custom e = Ok true -> is_predefined e = Ok false.
Proof.
  destruct e as [| | | | s | l | d]; try discriminate.
  - unfold is_predefined, is_custom. simpl.
    destruct (existsb _ l); [discriminate | reflexivity].
  - apply custom_not_predefined.
Qed.

(** What the run does when the other entries assemble and the loop over
    the predefined entries raises on this one. *)
Lemma create_raises_in_predefined_loop
      (self : RecognizerRegistryProvider) (l1 l2 : list pyval)
      (e : pyval) (reg' : RecognizerRegistry) (err : exn) :
  create_recognizer_registry lib from_dict
                             (with_recognizers self (l1 ++ l2))
  = Ok reg' ->
  is_predefined e = Ok true ->
  predefined_instances lib (resolved_self self) e = Raise err ->
  create_recognizer_registry lib from_dict
                             (with_recognizers self (l1 ++ e :: l2))
  = Raise err.
Proof.
  intros H Hp He.
  rewrite create_with_unfold in H.
  unfold _split_recognizers in H. cbn [py_iter bind] in H.
  apply bind_Ok in H as (split & Hsplit & H).
  apply bind_Ok in Hsplit as (pre & Hpre & Hsplit).
  apply bind_Ok in Hsplit as (cus & Hcus & Hsplit). injection Hsplit as <-.
  cbn [fst snd] in H.
  apply comprehension_if_app_Ok in Hpre as (pre1 & pre2 & Hpre1 & Hpre2 & ->).
  apply comprehension_if_app_Ok in Hcus as (cus1 & cus2 & Hcus1 & Hcus2 & ->).
  apply bind_Ok in H as (a & Ha & _).
  rewrite for_each_app in Ha. apply bind_Ok in Ha as (a1 & Ha1 & _).
  rewrite create_with_unfold.
  unfold _split_recognizers. cbn [py_iter bind].
  rewrite !comprehension_if_app, Hpre1, Hcus1. cbn [bind].
  rewrite (comprehension_if_keep is_predefined e l2 Hp), Hpre2. cbn [bind].
  rewrite (comprehension_if_skip is_custom e l2
             (predefined_not_custom e Hp)), Hcus2.
  cbn [bind fst snd].
  rewrite for_each_app. rewrite Ha1. cbn [bind for_each].
  rewrite predefined_body_appends. now rewrite He.
Qed.

(** The same for the loop over the custom entries, which runs after every
    predefined entry has been processed. *)
Lemma create_raises_in_custom_loop
      (self : RecognizerRegistryProvider) (l1 l2 : list pyval)
      (e : pyval) (reg' : RecognizerRegistry) (err : exn) :
  create_recognizer_registry lib from_dict
                             (with_recognizers self (l1 ++ l2))
  = Ok reg' ->
  is_custom e = Ok true ->
  custom_instances from_dict (resolved_self self) e = Raise err ->
  create_recognizer_registry lib from_dict
                             (with_recognizers self (l1 ++ e :: l2))
  = Raise err.
Proof.
  intros H Hc He.
  rewrite create_with_unfold in H.
  unfold _split_recognizers in H. cbn [py_iter bind] in H.
  apply bind_Ok in H as (split & Hsplit & H).
  apply bind_Ok in Hsplit as (pre & Hpre & Hsplit).
  apply bind_Ok in Hsplit as (cus & Hcus & Hsplit). injection Hsplit as <-.
  cbn [fst snd] in H.
  apply comprehension_if_app_Ok in Hpre as (pre1 & pre2 & Hpre1 & Hpre2 & ->).
  apply comprehension_if_app_Ok in Hcus as (cus1 & cus2 & Hcus1 & Hcus2 & ->).
  apply bind_Ok in H as (a & Ha & H).
  apply bind_Ok in H as (b & Hb & _).
  rewrite for_each_app in Hb. apply bind_Ok in Hb as (b1 & Hb1 & _).
  rewrite create_with_unfold.
  unfold _split_recognizers. cbn [py_iter bind].
  rewrite !comprehension_if_app, Hpre1, Hcus1. cbn [bind].
  rewrite (comprehension_if_skip is_predefined e l2
             (custom_entry_is_not_predefined e Hc)), Hpre2.
  cbn [bind].
  rewrite (comprehension_if_keep is_custom e l2 Hc), Hcus2.
  cbn [bind fst snd].
  rewrite Ha. cbn [bind].
  rewrite for_each_app. rewrite Hb1. cbn [bind for_each].
  rewrite custom_body_appends. now rewrite He.
Qed.

(** X12.  An entry with an empty list under [supported_languages] stops
    the run with an index error (the first element is looked at before
    anything else), when the other entries assemble: a predefined entry
    does so even when it is disabled, a custom entry when it is enabled
    and has no singular [supported_language]. *)
Theorem empty_language_list_raises_an_index_error
        (self : RecognizerRegistryProvider) (l1 l2 : list pyval)
        (d : dict) (reg' : RecognizerRegistry) :
  dict_get "supported_languages" d = Some (PList []) ->
  is_predefined (PDict d) = Ok true
  \/ (is_custom (PDict d) = Ok true
      /\ enabled_entry (PDict d)
      /\ dict_mem "supported_language" d = false) ->
  create_recognizer_registry lib from_dict
                             (with_recognizers self (l1 ++ l2))
  = Ok reg' ->
  create_recognizer_registry lib from_dict
                             (with_recognizers self (l1 ++ PDict d :: l2))
  = Raise IndexError.
Proof.
  intros Hd Hkind H.
  assert (Hl : _get_recognizer_languages (resolved_self self) (PDict d)
               = Raise IndexError).
  { unfold _get_recognizer_languages. simpl. unfold dict_mem.
    now rewrite Hd. }
  destruct Hkind as [Hp | (Hc & (v & Hv & Ht) & Hleg)].
  - apply (create_raises_in_predefined_loop self l1 l2 (PDict d) reg' _ H Hp).
    unfold predefined_instances, predefined_body. now rewrite Hl.
  - apply (create_raises_in_custom_loop self l1 l2 (PDict d) reg' _ H Hc).
    unfold custom_instances, custom_body. rewrite Hv. simpl. rewrite Ht.
    unfold _create_custom_recognizers. simpl. rewrite Hleg. simpl.
    now rewrite Hl.
Qed.

Lemma comprehension_raises_at {A B : Type} (f : A -> result B)
      (xs rest : list A) (ys : list B) (y : A) (err : exn) :
  comprehension f xs = Ok ys ->
  f y = Raise err ->
  comprehension f (xs ++ y :: rest) = Raise err.
Proof.
  revert ys. induction xs as [|x xs IH]; intros ys Hxs Hy; simpl.
  - now rewrite Hy.
  - simpl in Hxs. apply bind_Ok in Hxs as (b & Hb & Hxs).
    apply bind_Ok in Hxs as (bs & Hbs & _).
    rewrite Hb. simpl. now rewrite (IH bs Hbs Hy).
Qed.

(** X13.  In the form with one mapping per language both keys are
    required: the first mapping that lacks [language], or has it and
    lacks [context], stops the expansion with a key error for that key;
    a mapping cannot leave its context out. *)
Theorem language_mapping_without_a_key_raises_a_key_error
        (self : RecognizerRegistryProvider) (d : dict)
        (mappings : list dict) (m : dict) (rest : list pyval) :
  dict_get "supported_languages" d
  = Some (PList (map PDict mappings ++ PDict m :: rest)) ->
  Forall (fun m' => dict_mem "language" m' = true
                    /\ dict_mem "context" m' = true) mappings ->
  dict_mem "language" m && dict_mem "context" m = false ->
  _get_recognizer_languages self (PDict d)
  = Raise (KeyError (PStr (if dict_mem "language" m then "context"
                           else "language"))).
Proof.
  intros Hd HF Hm.
  assert (Hc : comprehension
                 (fun language =>
                    l <- py_getitem language "language" ;;
                    c <- py_getitem language "context" ;;
                    Ok (language_scope l c))
                 (map PDict mappings ++ PDict m :: rest)
               = Raise (KeyError (PStr (if dict_mem "language" m
                                        then "context" else "language")))).
  { apply (comprehension_raises_at _ _ _ _ _ _
             (mappings_scopes mappings HF)).
    simpl. unfold dict_mem in *.
    destruct (dict_get "language" m); simpl in *; [|reflexivity].
    destruct (dict_get "context" m); [discriminate | reflexivity]. }
  unfold _get_recognizer_languages.
  cbn [is_str py_contains bind]. unfold dict_mem at 1. rewrite Hd.
  cbn [negb bind py_getitem]. rewrite Hd. cbn [bind].
  destruct mappings as [|m0 ms]; exact Hc.
Qed.

(** ** The keyword arguments of the constructors *)

Lemma scope_lookup (l c : pyval) (k : string) :
  dict_get k (language_scope l c)
  = if String.eqb k "supported_language" then Some l
    else if String.eqb k "context" then Some c else None.
Proof. reflexivity. Qed.

Lemma merged_kwargs_law (excluded : list string) (items : dict)
      (l c : pyval) :
  kwargs_law excluded items (language_scope l c)
             (dict_merge (dict_without excluded items) (language_scope l c)).
Proof.
  intros k. unfold dict_merge. rewrite scope_lookup.
  unfold language_scope. cbn [fold_left fst snd]. rewrite !dict_get_set.
  rewrite (String.eqb_sym "context" k),
    (String.eqb_sym "supported_language" k).
  destruct (String.eqb_spec k "supported_language") as [->|Hsl];
    [reflexivity|].
  destruct (String.eqb k "context"); [reflexivity|]. cbn [orb].
  unfold dict_without.
  rewrite (dict_get_filter_key (not_in_names excluded)).
  unfold not_in_names. now destruct (existsb (String.eqb k) excluded).
Qed.

(** Every scope is a mapping with the two keys. *)
Lemma scopes_shape (self : RecognizerRegistryProvider) (e : pyval)
      (scopes : list dict) :
  _get_recognizer_languages self e = Ok scopes ->
  Forall (fun sc => exists l c, sc = language_scope l c) scopes.
Proof.
  assert (G : forall (f : pyval -> result dict) xs,
             (forall x sc, f x = Ok sc ->
                           exists l c, sc = language_scope l c) ->
             forall scs, comprehension f xs = Ok scs ->
                         Forall (fun sc => exists l c,
                                     sc = language_scope l c) scs).
  { intros f xs Hf scs H. apply comprehension_Ok in H.
    induction H; constructor; eauto. }
  unfold _get_recognizer_languages. intros H.
  apply bind_Ok in H as (rw & _ & H). destruct rw.
  - apply bind_Ok in H as (languages & _ & H).
    apply (G _ _) in H; [exact H|]. intros x sc Hx.
    apply bind_Ok in Hx as (c & _ & Hx). injection Hx as <-. eauto.
  - apply bind_Ok in H as (declared & _ & H).
    apply bind_Ok in H as (first & _ & H).
    destruct (is_str first).
    + apply bind_Ok in H as (declared' & _ & H).
      apply bind_Ok in H as (languages & _ & H).
      apply (G _ _) in H; [exact H|]. intros x sc Hx.
      injection Hx as <-. eauto.
    + apply bind_Ok in H as (declared' & _ & H).
      apply bind_Ok in H as (languages & _ & H).
      apply (G _ _) in H; [exact H|]. intros x sc Hx.
      apply bind_Ok in Hx as (l & _ & Hx).
      apply bind_Ok in Hx as (c & _ & Hx). injection Hx as <-. eauto.
Qed.

(** The instances of a custom entry without the singular field, scope by
    scope, with the keyword arguments as the code builds them. *)
Lemma custom_instances_by_scope (self : RecognizerRegistryProvider)
      (d : dict) (rs : list EntityRecognizer) :
  dict_mem "supported_language" d = false ->
  _create_custom_recognizers from_dict self (PDict d) = Ok rs ->
  exists scopes,
    _get_recognizer_languages self (PDict d) = Ok scopes
    /\ Forall2 (fun sc r =>
                  from_dict
                    (PDict (dict_merge
                              (dict_without
                                 ["enabled"; "type"; "supported_languages"] d)
                              sc))
                  = Ok r) scopes rs.
Proof.
  intros Hleg H. unfold _create_custom_recognizers in H. simpl in H.
  rewrite Hleg in H. simpl in H.
  apply bind_Ok in H as (scopes & Hscopes & H).
  exists scopes. split; [exact Hscopes|].
  rewrite (for_each_appends
             (fun supported_language =>
                r <- from_dict
                       (PDict (dict_merge
                                 (dict_without
                                    ["enabled"; "type"; "supported_languages"]
                                    d)
                                 supported_language)) ;;
                Ok [r])) in H.
  2:{ intros sc acc. simpl. destruct (from_dict _); reflexivity. }
  apply bind_Ok in H as (ls & Hls & H). injection H as <-. simpl.
  apply comprehension_Ok in Hls. apply Forall2_singletons.
  eapply Forall2_impl; [|exact Hls]. intros sc l Hl.
  apply bind_Ok in Hl as (r & Hr & Hl). injection Hl as <-.
  now exists r.
Qed.

Lemma Forall2_with_left {A B : Type} (P : A -> Prop) (R : A -> B -> Prop)
      (xs : list A) (ys : list B) :
  Forall P xs -> Forall2 R xs ys ->
  Forall2 (fun x y => P x /\ R x y) xs ys.
Proof.
  intros HP HR. induction HR; inversion HP; subst; constructor; auto.
Qed.

(** X14.  What [PatternRecognizer.from_dict] receives for a custom entry
    without the singular field, once per language scope and in the order
    of the scopes: [supported_language] and [context] are those of the
    scope, also when the entry has a [context] of its own; [enabled],
    [type] and [supported_languages] are not passed; every other field of
    the entry is passed as it is. *)
Theorem custom_entry_keyword_arguments
        (self : RecognizerRegistryProvider) (d : dict)
        (rs : list EntityRecognizer) :
  dict_mem "supported_language" d = false ->
  _create_custom_recognizers from_dict self (PDict d) = Ok rs ->
  exists scopes,
    _get_recognizer_languages self (PDict d) = Ok scopes
    /\ Forall2 (fun sc r =>
                  exists kwargs,
                    from_dict (PDict kwargs) = Ok r
                    /\ kwargs_law ["enabled"; "type"; "supported_languages"]
                                  d sc kwargs) scopes rs.
Proof.
  intros Hleg H.
  destruct (custom_instances_by_scope self d rs Hleg H)
    as (scopes & Hscopes & HF).
  exists scopes. split; [exact Hscopes|].
  pose proof (Forall2_with_left _ _ _ _
                (scopes_shape self (PDict d) scopes Hscopes) HF) as HF'.
  eapply Forall2_impl; [|exact HF'].
  intros sc r ((l & c & ->) & Hr).
  eexists. split; [exact Hr|]. apply merged_kwargs_law.
Qed.

(** A list that starts with a string is expanded element by element,
    with no context. *)
Lemma plain_codes_scopes (self : RecognizerRegistryProvider) (d : dict)
      (code : string) (rest : list pyval) :
  dict_get "supported_languages" d = Some (PList (PStr code :: rest)) ->
  _get_recognizer_languages self (PDict d)
  = Ok (map (fun language => language_scope language PNone)
            (PStr code :: rest)).
Proof.
  intros Hd. unfold _get_recognizer_languages. simpl.
  unfold dict_mem. rewrite Hd. simpl.
  now rewrite (comprehension_pure _
                 (fun language => language_scope language PNone)).
Qed.

(** X15.  The [context] of a custom entry is lost when its
    [supported_languages] lists plain language codes: there is one
    instance per element of the list, and each is built with [context]
    bound to [None]. *)
Theorem plain_language_codes_drop_the_context
        (self : RecognizerRegistryProvider) (d : dict)
        (code : string) (rest : list pyval) (rs : list EntityRecognizer) :
  dict_mem "supported_language" d = false ->
  dict_get "supported_languages" d = Some (PList (PStr code :: rest)) ->
  _create_custom_recognizers from_dict self (PDict d) = Ok rs ->
  Forall2 (fun language r =>
             exists kwargs,
               from_dict (PDict kwargs) = Ok r
               /\ dict_get "supported_language" kwargs = Some language
               /\ dict_get "context" kwargs = Some PNone)
          (PStr code :: rest) rs.
Proof.
  intros Hleg Hd H.
  destruct (custom_instances_by_scope self d rs Hleg H)
    as (scopes & Hscopes & HF).
  rewrite (plain_codes_scopes self d code rest Hd) in Hscopes.
  assert (Es : map (fun language => language_scope language PNone)
                   (PStr code :: rest) = scopes)
    by (injection Hscopes as Hs; exact Hs).
  rewrite <- Es in HF. apply Forall2_map_left in HF.
  eapply Forall2_impl; [|exact HF]. intros language r Hr.
  eexists. split; [exact Hr|]. split.
  - apply scope_language.
  - pose proof (merged_kwargs_law
                  ["enabled"; "type"; "supported_languages"] d
                  language PNone "context") as Hk.
    simpl in Hk. exact Hk.
Qed.

Lemma call_predefined_Ok (name : pyval) (kwargs : dict)
      (r : EntityRecognizer) :
  call_predefined lib name kwargs = Ok r ->
  exists s cls, name = PStr s /\ lib s = Some cls /\ cls kwargs = Ok r.
Proof.
  destruct name as [| | | | s | |]; simpl; try discriminate.
  destruct (lib s) as [cls|] eqn:E; [|discriminate].
  intros H. now exists s, cls.
Qed.

(** X16.  What the class of a predefined entry receives, once per
    language scope and in the order of the scopes: the class is the one
    bound to the name of the entry; [supported_language] and [context] are
    those of the scope; [enabled], [type], [supported_languages] and
    [name] are not passed; every other field of the entry is passed as it
    is (a bare name has none). *)
Theorem predefined_entry_keyword_arguments
        (self : RecognizerRegistryProvider) (e : pyval)
        (rs : list EntityRecognizer) :
  enabled_entry e ->
  predefined_body lib self e [] = Ok rs ->
  exists scopes,
    _get_recognizer_languages self e = Ok scopes
    /\ Forall2 (fun sc r =>
                  exists items name cls kwargs,
                    _get_recognizer_items e = Ok items
                    /\ _get_recognizer_name e = Ok (PStr name)
                    /\ lib name = Some cls
                    /\ cls kwargs = Ok r
                    /\ kwargs_law
                         ["enabled"; "type"; "supported_languages"; "name"]
                         items sc kwargs) scopes rs.
Proof.
  intros (v & Hv & Ht) H. rewrite predefined_body_scopes in H.
  apply bind_Ok in H as (scopes & Hscopes & H).
  apply bind_Ok in H as (ls & Hls & H). injection H as <-. simpl.
  exists scopes. split; [exact Hscopes|].
  apply comprehension_Ok in Hls. apply Forall2_singletons.
  pose proof (Forall2_with_left _ _ _ _
                (scopes_shape self e scopes Hscopes) Hls) as HF.
  eapply Forall2_impl; [|exact HF].
  intros sc l ((lang & c & ->) & Hl).
  unfold predefined_scope_instances in Hl. rewrite Hv in Hl.
  simpl in Hl. rewrite Ht in Hl.
  apply bind_Ok in Hl as (items & Hitems & Hl).
  apply bind_Ok in Hl as (name & Hname & Hl).
  apply bind_Ok in Hl as (r & Hr & Hl). injection Hl as <-.
  apply call_predefined_Ok in Hr as (s & cls & -> & Hlib & Hcls).
  exists r. split; [reflexivity|].
  exists items, s, cls. eexists. repeat split; try eassumption.
  apply merged_kwargs_law.
Qed.

End AssemblyLaws.

(** ** The analyzer engine provider *)

Section EngineLaws.

Variable package_dir : string.
Variable fs : filesystem.
Variable path_exists : string -> bool.
Variable NlpEngine : Type.
Variable nlp_create_engine : pyval -> result NlpEngine.
Variable AnalyzerEngine : Type.
Variable new_engine :
  option NlpEngine -> option RecognizerRegistry -> pyval -> pyval ->
  result AnalyzerEngine.

(** Whatever the value under [recognizer_registry] is, the registry is
    never loaded: the provider is built or fails, and the method that
    would assemble the registry does not exist. *)
Lemma load_recognizer_registry_raises (self : AnalyzerEngineProvider) :
  py_contains "recognizer_registry" (engine_configuration self) = Ok true ->
  exists e,
    snd (_load_recognizer_registry package_dir fs self) = Raise e.
Proof.
  intros H. unfold _load_recognizer_registry. rewrite H.
  destruct (py_getitem _ _) as [v|e]; [|now exists e].
  rewrite snd_io_bind.
  destruct (snd (provider_of_value package_dir fs v)) as [prov|e];
    simpl; eauto.
Qed.

(** X17.  An engine configuration that has the key [recognizer_registry]
    never gives an engine: [_load_recognizer_registry] raises whatever
    the value under the key is (it calls a method the registry provider
    does not have), and so does [create_engine]. *)
Theorem engine_with_a_registry_configuration_is_never_created
        (self : AnalyzerEngineProvider) :
  py_contains "recognizer_registry" (engine_configuration self) = Ok true ->
  (exists e, snd (_load_recognizer_registry package_dir fs self) = Raise e)
  /\ (exists e,
        snd (create_engine package_dir fs NlpEngine nlp_create_engine
                           AnalyzerEngine new_engine self)
        = Raise e).
Proof.
  intros H. pose proof (load_recognizer_registry_raises self H) as (e & He).
  split; [now exists e|].
  unfold create_engine. rewrite snd_io_bind.
  destruct (snd (_load_nlp_engine NlpEngine nlp_create_engine self))
    as [nlp|e']; [|now exists e'].
  rewrite snd_io_bind, He. now exists e.
Qed.

(** X18.  Without a usable file (no path, an empty string, or a path at
    which nothing exists) no file is opened and the NLP engine provider
    is not asked: four warnings are logged and the engine is built with
    no NLP engine, no registry, the language ["en"] and the threshold
    [0]. *)
Theorem engine_without_a_file_uses_the_defaults
        (conf_file : option conf_path) :
  conf_file = None
  \/ (exists p, conf_file = Some p
                /\ (p = StrPath "" \/ path_exists (path_string p) = false)) ->
  provide_engine package_dir fs path_exists NlpEngine nlp_create_engine
                 AnalyzerEngine new_engine conf_file
  = ([Warned
        "configuration file is missing. Using default configuration for analyzer engine";
      Warned
        "configuration file is missing 'nlp_configuration'. Using default configuration for nlp engine";
      Warned
        "configuration file is missing 'recognizer_registry'. Using default configuration for recognizer registry";
      Warned
        "configuration file is missing 'analyzer_engine'. Using default configuration for analyzer engine"],
     new_engine None None (PStr "en") (PInt 0)).
Proof.
  intros [-> | (p & -> & [-> | Hp])]; unfold provide_engine, engine_init.
  - reflexivity.
  - reflexivity.
  - rewrite Hp. rewrite orb_true_r. reflexivity.
Qed.

(** [create_engine] on a mapping reads four keys and the presence of a
    fifth. *)
Lemma create_engine_reads (d d' : dict) :
  dict_get "nlp_configuration" d = dict_get "nlp_configuration" d' ->
  dict_get "recognizer_registry" d = dict_get "recognizer_registry" d' ->
  dict_mem "analyzer_engine" d = dict_mem "analyzer_engine" d' ->
  (dict_mem "analyzer_engine" d = true ->
   dict_get "supported_languages" d = dict_get "supported_languages" d'
   /\ dict_get "default_score_threshold" d
      = dict_get "default_score_threshold" d') ->
  create_engine package_dir fs NlpEngine nlp_create_engine
                AnalyzerEngine new_engine
                {| engine_configuration := PDict d |}
  = create_engine package_dir fs NlpEngine nlp_create_engine
                  AnalyzerEngine new_engine
                  {| engine_configuration := PDict d' |}.
Proof.
  intros Hn Hr Ha Hs.
  unfold create_engine, _load_nlp_engine, _load_recognizer_registry.
  cbn [engine_configuration py_contains py_getitem py_get_default].
  unfold dict_mem, dict_get_default in *.
  rewrite <- Hn, <- Hr, <- Ha.
  destruct (dict_get "analyzer_engine" d); [|reflexivity].
  destruct (Hs eq_refl) as [<- <-]. reflexivity.
Qed.

(** X19.  What stands under the key [analyzer_engine] is never read: only
    the presence of the key counts, and the two settings are taken from
    the top level of the document.  Putting any other value under the
    key leaves [create_engine] as it was, effects included. *)
Theorem value_under_analyzer_engine_is_never_read
        (d : dict) (v : pyval) :
  dict_mem "analyzer_engine" d = true ->
  create_engine package_dir fs NlpEngine nlp_create_engine
                AnalyzerEngine new_engine
                {| engine_configuration :=
                     PDict (dict_set "analyzer_engine" v d) |}
  = create_engine package_dir fs NlpEngine nlp_create_engine
                  AnalyzerEngine new_engine
                  {| engine_configuration := PDict d |}.
Proof.
  intros H. apply create_engine_reads.
  - now apply dict_get_set_other.
  - now apply dict_get_set_other.
  - unfold dict_mem. now rewrite dict_get_set_same.
  - intros _. split; now apply dict_get_set_other.
Qed.

(** What [create_engine] returns for a document without the key
    [analyzer_engine]: the error of the first load that fails, and
    otherwise the engine built from what the two loads gave, the language
    ["en"] and the threshold [0]. *)
Lemma create_engine_without_analyzer_engine (self : AnalyzerEngineProvider) :
  py_contains "analyzer_engine" (engine_configuration self) = Ok false ->
  snd (create_engine package_dir fs NlpEngine nlp_create_engine
                     AnalyzerEngine new_engine self)
  = match snd (_load_nlp_engine NlpEngine nlp_create_engine self) with
    | Raise e => Raise e
    | Ok nlp_engine =>
        match snd (_load_recognizer_registry package_dir fs self) with
        | Raise e => Raise e
        | Ok registry => new_engine nlp_engine registry (PStr "en") (PInt 0)
        end
    end.
Proof.
  intros H. unfold create_engine. rewrite snd_io_bind.
  destruct (snd (_load_nlp_engine NlpEngine nlp_create_engine self))
    as [nlp_engine|e]; [|reflexivity].
  rewrite snd_io_bind.
  destruct (snd (_load_recognizer_registry package_dir fs self))
    as [registry|e]; [|reflexivity].
  now rewrite H.
Qed.

(** X20.  Without the key [analyzer_engine] the top-level
    [supported_languages] and [default_score_threshold] have no effect:
    whatever they are set to, [create_engine] does what it does without
    them, effects included, and what it returns is the error of the load
    that failed or the engine built from the loaded NLP engine and
    registry with the language ["en"] and the threshold [0]. *)
Theorem settings_without_analyzer_engine_are_ignored
        (d : dict) (languages threshold : pyval) :
  dict_mem "analyzer_engine" d = false ->
  create_engine package_dir fs NlpEngine nlp_create_engine
                AnalyzerEngine new_engine
                {| engine_configuration :=
                     PDict (dict_set "default_score_threshold" threshold
                              (dict_set "supported_languages" languages d)) |}
  = create_engine package_dir fs NlpEngine nlp_create_engine
                  AnalyzerEngine new_engine
                  {| engine_configuration := PDict d |}
  /\ snd (create_engine package_dir fs NlpEngine nlp_create_engine
                        AnalyzerEngine new_engine
                        {| engine_configuration :=
                             PDict (dict_set "default_score_threshold"
                                      threshold
                                      (dict_set "supported_languages"
                                         languages d)) |})
     = match snd (_load_nlp_engine
                    NlpEngine nlp_create_engine
                    {| engine_configuration :=
                         PDict (dict_set "default_score_threshold" threshold
                                  (dict_set "supported_languages"
                                     languages d)) |}) with
       | Raise e => Raise e
       | Ok nlp_engine =>
           match snd (_load_recognizer_registry
                        package_dir fs
                        {| engine_configuration :=
                             PDict (dict_set "default_score_threshold"
                                      threshold
                                      (dict_set "supported_languages"
                                         languages d)) |}) with
           | Raise e => Raise e
           | Ok registry =>
               new_engine nlp_engine registry (PStr "en") (PInt 0)
           end
       end.
Proof.
  intros H. split.
  - apply create_engine_reads.
    + now rewrite !dict_get_set_other.
    + now rewrite !dict_get_set_other.
    + unfold dict_mem in *. now rewrite !dict_get_set_other.
    + unfold dict_mem in *. rewrite !dict_get_set_other by discriminate.
      intros Ht. destruct (dict_get "analyzer_engine" d); discriminate.
  - apply create_engine_without_analyzer_engine.
    cbn [engine_configuration py_contains]. unfold dict_mem in *.
    rewrite !dict_get_set_other by discriminate.
    now destruct (dict_get "analyzer_engine" d).
Qed.

End EngineLaws.

(** ** Worked examples of the further properties *)

Lemma two_keys_distinct (a b : string) :
  a <> b -> NoDup [a; b].
Proof.
  intros H. constructor.
  - intros [E | []]. apply H. now symmetry.
  - constructor; [intros [] | constructor].
Defined.

(** X1: an inline mapping that sets the languages. *)
Lemma inline_mapping_is_layered_over_the_default_document_witness :
  exists cfg,
    _get_configuration "/pkg" sample_fs None
                       (Some [("supported_languages", PList [PStr "de"])])
    = ([Opened (default_document_path "/pkg")], Ok cfg)
    /\ cfg = [("supported_languages", PList [PStr "de"])]
               ++ filter
                    (fun e =>
                       negb (dict_mem (fst e)
                               [("supported_languages", PList [PStr "de"])]))
                    sample_default_document
    /\ forall k,
        dict_get k cfg
        = match dict_get k [("supported_languages", PList [PStr "de"])] with
          | Some v => Some v
          | None => dict_get k sample_default_document
          end.
Proof.
  apply (inline_mapping_is_layered_over_the_default_document
           "/pkg" sample_fs None
           ("supported_languages", PList [PStr "de"]) []
           sample_default_document).
  - reflexivity.
  - reflexivity.
  - apply two_keys_distinct. discriminate.
Defined.

(** X2: a file that does not parse. *)
Lemma unloadable_path_falls_back_to_the_default_document_witness :
  _get_configuration "/pkg" sample_fs (Some (StrPath "broken.yaml")) None
  = ([Opened "broken.yaml";
      Warned "Failed to parse file broken.yaml, resorting to default";
      Opened "/pkg/conf/default_recognizers.yaml"],
     Ok sample_default_document).
Proof.
  apply (unloadable_path_falls_back_to_the_default_document
           "/pkg" sample_fs (StrPath "broken.yaml")).
  - discriminate.
  - intros d. discriminate.
Defined.

(** X3: the path of a document that is a mapping. *)
Lemma loadable_path_is_the_whole_configuration_witness :
  _get_configuration "/elsewhere" sample_fs
    (Some (PathObj "/pkg/conf/default_recognizers.yaml")) None
  = ([Opened "/pkg/conf/default_recognizers.yaml"],
     Ok sample_default_document).
Proof.
  apply (loadable_path_is_the_whole_configuration
           "/elsewhere" sample_fs
           (PathObj "/pkg/conf/default_recognizers.yaml")
           sample_default_document).
  - discriminate.
  - reflexivity.
  - apply two_keys_distinct. discriminate.
Defined.

(** X4: a complete inline mapping in a package without its default
    document. *)
Lemma default_document_is_always_needed_witness :
  _get_configuration "/elsewhere" sample_fs None (Some complete_inline)
  = ([Opened "/elsewhere/conf/default_recognizers.yaml"], Raise IOError).
Proof.
  apply (default_document_is_always_needed
           "/elsewhere" sample_fs None (Some complete_inline)).
  - reflexivity.
  - intros d. discriminate.
Defined.

(** X5: an entry of type [regex]. *)
Lemma entry_of_unknown_type_is_dropped_witness :
  create_recognizer_registry sample_library sample_from_dict
    (with_recognizers english_german
       ([PStr "SpacyRecognizer"] ++ PDict regex_entry :: [PDict plain_zip]))
  = create_recognizer_registry sample_library sample_from_dict
      (with_recognizers english_german
         ([PStr "SpacyRecognizer"] ++ [PDict plain_zip])).
Proof.
  apply (entry_of_unknown_type_is_dropped
           sample_library sample_from_dict english_german
           [PStr "SpacyRecognizer"] [PDict plain_zip] regex_entry
           (PStr "regex")); reflexivity.
Defined.

(** X6: a custom entry declared before a predefined one. *)
Lemma custom_and_predefined_entries_commute_witness :
  create_recognizer_registry sample_library sample_from_dict
    (with_recognizers english_german
       ([] ++ PDict plain_zip :: PStr "SpacyRecognizer" :: []))
  = create_recognizer_registry sample_library sample_from_dict
      (with_recognizers english_german
         ([] ++ PStr "SpacyRecognizer" :: PDict plain_zip :: [])).
Proof.
  apply (custom_and_predefined_entries_commute
           sample_library sample_from_dict english_german [] []
           (PDict plain_zip) (PStr "SpacyRecognizer")); reflexivity.
Defined.

(** X7: a number among the entries, after an entry that would build. *)
Lemma scalar_entry_raises_a_type_error_witness :
  create_recognizer_registry sample_library sample_from_dict
    (with_recognizers english
       ([PStr "SpacyRecognizer"] ++ PInt 5 :: [PDict plain_zip]))
  = Raise TypeError.
Proof.
  apply (scalar_entry_raises_a_type_error
           sample_library sample_from_dict english
           [PStr "SpacyRecognizer"] [PDict plain_zip] (PInt 5)).
  reflexivity.
Defined.

(** X8: a configuration that only sets the languages. *)
Lemma no_entry_gives_the_empty_registry_witness :
  create_recognizer_registry sample_library sample_from_dict english_german
  = Ok {| registry_supported_languages := PList [PStr "en"; PStr "de"];
          registry_recognizers := [];
          registry_global_regex_flags := PInt 26 |}.
Proof.
  apply (no_entry_gives_the_empty_registry
           sample_library sample_from_dict english_german).
  reflexivity.
Defined.

(** X9: three entries cut after the second. *)
Lemma parts_of_an_assembling_configuration_assemble_witness :
  exists reg r1 r2,
    create_recognizer_registry sample_library sample_from_dict
      (with_recognizers english_german
         ([PDict plain_zip; PStr "SpacyRecognizer"]
            ++ [PStr "CreditCardRecognizer"]))
    = Ok reg
    /\ create_recognizer_registry sample_library sample_from_dict
         (with_recognizers english_german
            [PDict plain_zip; PStr "SpacyRecognizer"])
       = Ok r1
    /\ create_recognizer_registry sample_library sample_from_dict
         (with_recognizers english_german [PStr "CreditCardRecognizer"])
       = Ok r2
    /\ Permutation (registry_recognizers reg)
                   (registry_recognizers r1 ++ registry_recognizers r2)
    /\ List.length (registry_recognizers reg)
       = List.length (registry_recognizers r1)
         + List.length (registry_recognizers r2).
Proof.
  eexists.
  assert (H : create_recognizer_registry sample_library sample_from_dict
                (with_recognizers english_german
                   ([PDict plain_zip; PStr "SpacyRecognizer"]
                      ++ [PStr "CreditCardRecognizer"]))
              = Ok _) by run.
  destruct (parts_of_an_assembling_configuration_assemble
              sample_library sample_from_dict english_german
              [PDict plain_zip; PStr "SpacyRecognizer"]
              [PStr "CreditCardRecognizer"] _ H)
    as (r1 & r2 & H1 & H2 & H3 & H4).
  exists r1, r2. repeat split; assumption.
Defined.

(** X10: the two parts of the same configuration, joined. *)
Lemma assembling_configurations_can_be_joined_witness :
  exists r1 r2 reg,
    create_recognizer_registry sample_library sample_from_dict
      (with_recognizers english_german
         [PDict plain_zip; PStr "SpacyRecognizer"])
    = Ok r1
    /\ create_recognizer_registry sample_library sample_from_dict
         (with_recognizers english_german [PStr "CreditCardRecognizer"])
       = Ok r2
    /\ create_recognizer_registry sample_library sample_from_dict
         (with_recognizers english_german
            ([PDict plain_zip; PStr "SpacyRecognizer"]
               ++ [PStr "CreditCardRecognizer"]))
       = Ok reg
    /\ Permutation (registry_recognizers reg)
                   (registry_recognizers r1 ++ registry_recognizers r2).
Proof.
  do 2 eexists.
  assert (H1 : create_recognizer_registry sample_library sample_from_dict
                 (with_recognizers english_german
                    [PDict plain_zip; PStr "SpacyRecognizer"])
               = Ok _) by run.
  assert (H2 : create_recognizer_registry sample_library sample_from_dict
                 (with_recognizers english_german
                    [PStr "CreditCardRecognizer"])
               = Ok _) by run.
  destruct (assembling_configurations_can_be_joined
              sample_library sample_from_dict english_german
              [PDict plain_zip; PStr "SpacyRecognizer"]
              [PStr "CreditCardRecognizer"] _ _ H1 H2)
    as (reg & H & HP).
  exists reg. repeat split; assumption.
Defined.

(** X11: a predefined entry with [enabled: 0]. *)
Lemma false_value_of_enabled_disables_the_entry_witness :
  exists reg,
    create_recognizer_registry sample_library sample_from_dict
      (with_recognizers english_german
         ([PStr "SpacyRecognizer"] ++ PDict zero_enabled_credit_card :: []))
    = Ok reg
    /\ create_recognizer_registry sample_library sample_from_dict
         (with_recognizers english_german ([PStr "SpacyRecognizer"] ++ []))
       = Ok reg
    /\ List.length (registry_recognizers reg) = 2.
Proof.
  eexists. split; [run|]. split; [|reflexivity].
  apply (false_value_of_enabled_disables_the_entry
           sample_library sample_from_dict english_german
           [PStr "SpacyRecognizer"] [] zero_enabled_credit_card (PInt 0)).
  - reflexivity.
  - reflexivity.
  - run.
Defined.

(** X12: a disabled predefined entry with an empty language list. *)
Lemma empty_language_list_raises_an_index_error_witness :
  create_recognizer_registry sample_library sample_from_dict
    (with_recognizers english
       ([PStr "SpacyRecognizer"] ++ PDict disabled_without_languages :: []))
  = Raise IndexError.
Proof.
  assert (H : create_recognizer_registry sample_library sample_from_dict
                (with_recognizers english ([PStr "SpacyRecognizer"] ++ []))
              = Ok _) by run.
  apply (empty_language_list_raises_an_index_error
           sample_library sample_from_dict english
           [PStr "SpacyRecognizer"] [] disabled_without_languages _
           eq_refl (or_introl eq_refl) H).
Defined.

(** X13: the second mapping has no context. *)
Lemma language_mapping_without_a_key_raises_a_key_error_witness :
  _get_recognizer_languages english (PDict scoped_without_context)
  = Raise (KeyError (PStr "context")).
Proof.
  apply (language_mapping_without_a_key_raises_a_key_error
           english scoped_without_context
           [[("language", PStr "en"); ("context", PList [PStr "zip"])]]
           [("language", PStr "de")] []).
  - reflexivity.
  - repeat constructor.
  - reflexivity.
Defined.

(** X14: a custom entry with [type], [enabled] and a context, in two
    languages. *)
Lemma custom_entry_keyword_arguments_witness :
  exists rs scopes,
    _create_custom_recognizers sample_from_dict english
                               (PDict coded_zip_with_context)
    = Ok rs
    /\ _get_recognizer_languages english (PDict coded_zip_with_context)
       = Ok scopes
    /\ Forall2 (fun sc r =>
                  exists kwargs,
                    sample_from_dict (PDict kwargs) = Ok r
                    /\ kwargs_law ["enabled"; "type"; "supported_languages"]
                                  coded_zip_with_context sc kwargs)
               scopes rs
    /\ List.length rs = 2.
Proof.
  eexists.
  assert (H : _create_custom_recognizers sample_from_dict english
                (PDict coded_zip_with_context)
              = Ok _) by run.
  destruct (custom_entry_keyword_arguments
              sample_from_dict english coded_zip_with_context _ eq_refl H)
    as (scopes & H1 & H2).
  exists scopes. repeat split; assumption || reflexivity.
Defined.

(** X15: the same entry: its context does not reach the instances. *)
Lemma plain_language_codes_drop_the_context_witness :
  dict_get "context" coded_zip_with_context
  = Some (PList [PStr "zip"; PStr "code"])
  /\ exists rs,
      _create_custom_recognizers sample_from_dict english
                                 (PDict coded_zip_with_context)
      = Ok rs
      /\ Forall2 (fun language r =>
                    exists kwargs,
                      sample_from_dict (PDict kwargs) = Ok r
                      /\ dict_get "supported_language" kwargs = Some language
                      /\ dict_get "context" kwargs = Some PNone)
                 [PStr "en"; PStr "de"] rs.
Proof.
  split; [reflexivity|]. eexists.
  assert (H : _create_custom_recognizers sample_from_dict english
                (PDict coded_zip_with_context)
              = Ok _) by run.
  split; [exact H|].
  apply (plain_language_codes_drop_the_context
           sample_from_dict english coded_zip_with_context
           "en" [PStr "de"] _ eq_refl eq_refl H).
Defined.

(** X16: a predefined entry with a field of its own, in two languages. *)
Lemma predefined_entry_keyword_arguments_witness :
  exists rs scopes,
    predefined_body sample_library english (PDict scored_credit_card) []
    = Ok rs
    /\ _get_recognizer_languages english (PDict scored_credit_card)
       = Ok scopes
    /\ Forall2 (fun sc r =>
                  exists items name cls kwargs,
                    _get_recognizer_items (PDict scored_credit_card)
                    = Ok items
                    /\ _get_recognizer_name (PDict scored_credit_card)
                       = Ok (PStr name)
                    /\ sample_library name = Some cls
                    /\ cls kwargs = Ok r
                    /\ kwargs_law
                         ["enabled"; "type"; "supported_languages"; "name"]
                         items sc kwargs)
               scopes rs
    /\ List.length rs = 2.
Proof.
  eexists.
  assert (H : predefined_body sample_library english
                (PDict scored_credit_card) []
              = Ok _) by run.
  destruct (predefined_entry_keyword_arguments
              sample_library english (PDict scored_credit_card) _
              (ex_intro _ (PBool true) (conj eq_refl eq_refl)) H)
    as (scopes & H1 & H2).
  exists scopes. repeat split; assumption || reflexivity.
Defined.

(** X17: an engine document with a registry configuration. *)
Lemma engine_with_a_registry_configuration_is_never_created_witness :
  (exists e,
      snd (_load_recognizer_registry "/pkg" sample_fs
             {| engine_configuration :=
                  PDict [("recognizer_registry",
                          PDict [("supported_languages",
                                  PList [PStr "en"])])] |})
      = Raise e)
  /\ (exists e,
        snd (create_engine "/pkg" sample_fs string sample_nlp
               SampleEngine sample_engine
               {| engine_configuration :=
                    PDict [("recognizer_registry",
                            PDict [("supported_languages",
                                    PList [PStr "en"])])] |})
        = Raise e).
Proof.
  apply (engine_with_a_registry_configuration_is_never_created
           "/pkg" sample_fs string sample_nlp SampleEngine sample_engine).
  reflexivity.
Defined.

(** X18: a path at which nothing exists. *)
Lemma engine_without_a_file_uses_the_defaults_witness :
  provide_engine "/pkg" sample_fs sample_exists string sample_nlp
                 SampleEngine sample_engine
                 (Some (StrPath "missing.yaml"))
  = ([Warned
        "configuration file is missing. Using default configuration for analyzer engine";
      Warned
        "configuration file is missing 'nlp_configuration'. Using default configuration for nlp engine";
      Warned
        "configuration file is missing 'recognizer_registry'. Using default configuration for recognizer registry";
      Warned
        "configuration file is missing 'analyzer_engine'. Using default configuration for analyzer engine"],
     Ok {| engine_nlp := None; engine_registry := None;
           engine_languages := PStr "en"; engine_threshold := PInt 0 |}).
Proof.
  apply (engine_without_a_file_uses_the_defaults
           "/pkg" sample_fs sample_exists string sample_nlp
           SampleEngine sample_engine (Some (StrPath "missing.yaml"))).
  right. exists (StrPath "missing.yaml"). split; [reflexivity|].
  right. reflexivity.
Defined.

(** X19: languages set inside and outside [analyzer_engine]. *)
Lemma value_under_analyzer_engine_is_never_read_witness :
  create_engine "/pkg" sample_fs string sample_nlp SampleEngine sample_engine
    {| engine_configuration :=
         PDict (dict_set "analyzer_engine" PNone
                  [("analyzer_engine",
                    PDict [("supported_languages", PList [PStr "de"])]);
                   ("supported_languages", PList [PStr "es"])]) |}
  = create_engine "/pkg" sample_fs string sample_nlp SampleEngine
      sample_engine
      {| engine_configuration :=
           PDict [("analyzer_engine",
                   PDict [("supported_languages", PList [PStr "de"])]);
                  ("supported_languages", PList [PStr "es"])] |}.
Proof.
  apply (value_under_analyzer_engine_is_never_read
           "/pkg" sample_fs string sample_nlp SampleEngine sample_engine).
  reflexivity.
Defined.

(** X20: top-level settings in a document without [analyzer_engine]: the
    engine has the NLP engine that was loaded, no registry, ["en"] and
    [0], not the settings of the document. *)
Lemma settings_without_analyzer_engine_are_ignored_witness :
  create_engine "/pkg" sample_fs string sample_nlp SampleEngine sample_engine
    {| engine_configuration :=
         PDict (dict_set "default_score_threshold" (PInt 1)
                  (dict_set "supported_languages" (PList [PStr "de"])
                     [("nlp_configuration", PDict [])])) |}
  = create_engine "/pkg" sample_fs string sample_nlp SampleEngine
      sample_engine
      {| engine_configuration := PDict [("nlp_configuration", PDict [])] |}
  /\ snd (create_engine "/pkg" sample_fs string sample_nlp SampleEngine
                        sample_engine
                        {| engine_configuration :=
                             PDict (dict_set "default_score_threshold"
                                      (PInt 1)
                                      (dict_set "supported_languages"
                                         (PList [PStr "de"])
                                         [("nlp_configuration",
                                           PDict [])])) |})
     = Ok {| engine_nlp := Some "spacy"; engine_registry := None;
             engine_languages := PStr "en"; engine_threshold := PInt 0 |}.
Proof.
  apply (settings_without_analyzer_engine_are_ignored
           "/pkg" sample_fs string sample_nlp SampleEngine sample_engine).
  reflexivity.
Defined.
